(** * JOA.js: payload construction for MuniRPC v2

    A shallow embedding of [src/Joa.js] (the JOA client of Munisense) and
    the properties of its payload pipeline: header construction, message
    queue, serialization, hashing.

    Conventions of the embedding.
    - A JavaScript string is a [string]: one [ascii] per code unit, so the
      code units of the model range over 0..255.
    - A JavaScript number is a [Z]: the numbers the program handles (ids,
      timestamps, 32-bit words of the digest) are integers, and the model
      covers them while they are exact in a double (below 2^53); their
      decimal rendering is the one of [Number.prototype.toString].
    - The bit operators of JavaScript convert their operands to 32-bit
      integers; the conversions [ToInt32] and [ToUint32] are written out.
    - The values passed around are primitives: [undefined], [null],
      booleans, numbers and strings.
    - An object is the list of its own properties in insertion order, which
      is the order [Object.keys] enumerates (no property of the program has
      an integer-like name).
    - A function that can throw returns a [completion]; a function that
      reports through a node-style callback returns the arguments it gives
      to the callback. *)

From Stdlib Require Import ZArith List String Ascii Bool Lia.
From Stdlib Require Import DecimalString HexadecimalString.
From Stdlib Require Import Sorted.
Import ListNotations.

Local Open Scope string_scope.
Local Open Scope Z_scope.

(** ** JavaScript values and primitive operations *)

Module JS.

Inductive value :=
| VUndefined
| VNull
| VBool (b : bool)
| VNum (n : Z)
| VStr (s : string).

Inductive error := TypeError | ReferenceError.

(** Result of evaluating a piece of code: a value, or a thrown error. *)
Inductive completion (A : Type) :=
| Normal (a : A)
| Throw (e : error).
Arguments Normal {A} a.
Arguments Throw {A} e.

Definition object := list (string * value).

(** [ToBoolean]. *)
Definition truthy (v : value) : bool :=
  match v with
  | VUndefined | VNull => false
  | VBool b => b
  | VNum n => negb (n =? 0)
  | VStr s => negb (String.eqb s "")
  end.

(** [ToString], as applied by [+] with a string operand. *)
Definition ToString (v : value) : string :=
  match v with
  | VUndefined => "undefined"
  | VNull => "null"
  | VBool true => "true"
  | VBool false => "false"
  | VNum n => DecimalString.NilZero.string_of_int (Z.to_int n)
  | VStr s => s
  end.

(** [a === b]. *)
Definition strict_eq (a b : value) : bool :=
  match a, b with
  | VUndefined, VUndefined => true
  | VNull, VNull => true
  | VBool x, VBool y => Bool.eqb x y
  | VNum x, VNum y => x =? y
  | VStr x, VStr y => String.eqb x y
  | _, _ => false
  end.

Definition len (s : string) : Z := Z.of_nat (String.length s).

(** [v.length > 0]: reading a property of [undefined] or [null] throws;
    a boolean or a number has no [length], and [undefined > 0] is false. *)
Definition length_gt_0 (v : value) : completion bool :=
  match v with
  | VUndefined | VNull => Throw TypeError
  | VBool _ | VNum _ => Normal false
  | VStr s => Normal (len s >? 0)
  end.

(** [o[k]]: the value of property [k], [undefined] when [o] has none. *)
Fixpoint get (o : object) (k : string) : value :=
  match o with
  | [] => VUndefined
  | (k', v) :: o' => if String.eqb k' k then v else get o' k
  end.

(** [o[k] = v]: an existing property keeps its place, a new one goes last. *)
Fixpoint set (o : object) (k : string) (v : value) : object :=
  match o with
  | [] => [(k, v)]
  | (k', v') :: o' =>
      if String.eqb k' k then (k', v) :: o' else (k', v') :: set o' k v
  end.

(** [Object.keys(o)]. *)
Definition keys (o : object) : list string := map fst o.

(** [s.indexOf(pat)]: the index of the first occurrence, or -1. *)
Fixpoint indexOf_from (i : Z) (s pat : string) : Z :=
  if prefix pat s then i
  else match s with
       | "" => -1
       | String _ s' => indexOf_from (i + 1) s' pat
       end.

Definition indexOf (s pat : string) : Z := indexOf_from 0 s pat.

(** The clamping of a relative index done by [slice] and [substr]. *)
Definition clamp (n i : Z) : Z :=
  if i <? 0 then Z.max (n + i) 0 else Z.min i n.

(** [s.slice(b)] and [s.slice(b, e)]. *)
Definition slice (s : string) (b : Z) (e : option Z) : string :=
  let n := len s in
  let from := clamp n b in
  let to := match e with None => n | Some e => clamp n e end in
  substring (Z.to_nat from) (Z.to_nat (Z.max (to - from) 0)) s.

(** [s.substr(b, l)]. *)
Definition substr (s : string) (b l : Z) : string :=
  let n := len s in
  let from := clamp n b in
  substring (Z.to_nat from) (Z.to_nat (Z.min (Z.max l 0) (n - from))) s.

(** [Array.prototype.join(sep)] on an array of strings. *)
Fixpoint join (sep : string) (l : list string) : string :=
  match l with
  | [] => ""
  | [x] => x
  | x :: l' => x ++ sep ++ join sep l'
  end.

(** An array of strings converted by [+]: [Array.prototype.toString]
    is [join(",")]. *)
Definition array_ToString (l : list string) : string := join "," l.

Definition charCode (c : ascii) : Z := Z.of_N (N_of_ascii c).
Definition fromCharCode (z : Z) : ascii := ascii_of_N (Z.to_N z).

(** [String.prototype.toLowerCase] on the code units below 256. *)
Definition lower_char (c : ascii) : ascii :=
  let x := charCode c in
  if ((65 <=? x) && (x <=? 90)) || ((192 <=? x) && (x <=? 222) && negb (x =? 215))
  then fromCharCode (x + 32) else c.

Fixpoint toLowerCase (s : string) : string :=
  match s with
  | "" => ""
  | String c s' => String (lower_char c) (toLowerCase s')
  end.

(** [n.toString(16)] for an integer [n]. *)
Definition toString16 (n : Z) : string :=
  if n <? 0
  then "-" ++ HexadecimalString.NilZero.string_of_uint (N.to_hex_uint (Z.to_N (- n)))
  else HexadecimalString.NilZero.string_of_uint (N.to_hex_uint (Z.to_N n)).

(** 32-bit conversions and operators. *)
Definition ToInt32 (z : Z) : Z := (z + 2147483648) mod 4294967296 - 2147483648.
Definition ToUint32 (z : Z) : Z := z mod 4294967296.

Definition band (a b : Z) : Z := ToInt32 (Z.land (ToInt32 a) (ToInt32 b)).
Definition bor (a b : Z) : Z := ToInt32 (Z.lor (ToInt32 a) (ToInt32 b)).
Definition bxor (a b : Z) : Z := ToInt32 (Z.lxor (ToInt32 a) (ToInt32 b)).
Definition bnot (a : Z) : Z := ToInt32 (Z.lnot (ToInt32 a)).
Definition shl (a d : Z) : Z := ToInt32 (Z.shiftl (ToInt32 a) (ToUint32 d mod 32)).
Definition shr (a d : Z) : Z := Z.shiftr (ToInt32 a) (ToUint32 d mod 32).
Definition shru (a d : Z) : Z := Z.shiftr (ToUint32 a) (ToUint32 d mod 32).

(** [aa[i]] on an array of numbers read by a bit operator: a hole or an
    index past the end reads [undefined], which the operator takes as 0. *)
Definition array_get (aa : list Z) (i : Z) : Z := nth (Z.to_nat i) aa 0.

(** [aa[i] = v]: writing past the end extends the array with holes. *)
Fixpoint array_set_nat (aa : list Z) (i : nat) (v : Z) : list Z :=
  match i, aa with
  | O, [] => [v]
  | O, _ :: t => v :: t
  | S i', [] => 0 :: array_set_nat [] i' v
  | S i', h :: t => h :: array_set_nat t i' v
  end.

Definition array_set (aa : list Z) (i : Z) (v : Z) : list Z :=
  array_set_nat aa (Z.to_nat i) v.

End JS.

(** ** The digest: [JOA.md5] *)

Module Md5.
Import JS.

Definition L (k d : Z) : Z := bor (shl k d) (shru k (32 - d)).

Definition K (G k : Z) : Z :=
  let F := band G 2147483648 in
  let H := band k 2147483648 in
  let I := band G 1073741824 in
  let d := band k 1073741824 in
  let x := band G 1073741823 + band k 1073741823 in
  if negb (band I d =? 0) then bxor (bxor (bxor x 2147483648) F) H
  else if negb (bor I d =? 0) then
    if negb (band x 1073741824 =? 0) then bxor (bxor (bxor x 3221225472) F) H
    else bxor (bxor (bxor x 1073741824) F) H
  else bxor (bxor x F) H.

Definition r (d F k : Z) : Z := bor (band d F) (band (bnot d) k).
Definition q (d F k : Z) : Z := bor (band d k) (band F (bnot k)).
Definition p (d F k : Z) : Z := bxor (bxor d F) k.
Definition n (d F k : Z) : Z := bxor F (bor d (bnot k)).

Definition u (G F aa Z' k H I : Z) : Z :=
  let G := K G (K (K (r F aa Z') k) I) in K (L G H) F.
Definition f (G F aa Z' k H I : Z) : Z :=
  let G := K G (K (K (q F aa Z') k) I) in K (L G H) F.
Definition D (G F aa Z' k H I : Z) : Z :=
  let G := K G (K (K (p F aa Z') k) I) in K (L G H) F.
Definition t (G F aa Z' k H I : Z) : Z :=
  let G := K G (K (K (n F aa Z') k) I) in K (L G H) F.

(** The [while] loop of [e]: [G] is the part of the string from index [H]
    on, so that [G.charCodeAt(H)] is the code of its first character. *)
Fixpoint e_loop (G : string) (H : Z) (aa : list Z) : Z * list Z :=
  match G with
  | "" => (H, aa)
  | String c G' =>
      let Z' := (H - H mod 4) / 4 in
      let d := (H mod 4) * 8 in
      e_loop G' (H + 1) (array_set aa Z' (bor (array_get aa Z') (shl (charCode c) d)))
  end.

(** [e]: the string as an array of 32-bit words, padded, with its length
    in bits.  [Array(I-1)] is an array of [I-1] holes; a hole is read only
    by [|] and by [K], which take it as 0, so the model stores 0. *)
Definition e (G : string) : list Z :=
  let F := len G in
  let x := F + 8 in
  let k := (x - x mod 64) / 64 in
  let I := (k + 1) * 16 in
  let aa := repeat 0 (Z.to_nat (I - 1)) in
  let '(H, aa) := e_loop G 0 aa in
  let Z' := (H - H mod 4) / 4 in
  let d := (H mod 4) * 8 in
  let aa := array_set aa Z' (bor (array_get aa Z') (shl 128 d)) in
  let aa := array_set aa (I - 2) (shl F 3) in
  let aa := array_set aa (I - 1) (shru F 29) in
  aa.

(** The body of the [for] loop of [B], for one value of [d]. *)
Definition B_step (x : Z) (k : string) (d : Z) : string :=
  let G := band (shru x (d * 8)) 255 in
  let F := "0" ++ toString16 G in
  k ++ substr F (len F - 2) 2.

Definition B (x : Z) : string :=
  fold_left (B_step x) [0; 1; 2; 3] "".

(** [k.replace(/rn/g, "n")]: the pattern of the source is the two letters
    [r] and [n]. *)
Fixpoint replace_rn (k : string) : string :=
  match k with
  | String "r" (String "n" k') => String "n" (replace_rn k')
  | String c k' => String c (replace_rn k')
  | "" => ""
  end.

(** The [for] loop of [J]. *)
Fixpoint J_loop (k : string) : string :=
  match k with
  | "" => ""
  | String c k' =>
      let x := charCode c in
      (if x <? 128 then String (fromCharCode x) ""
       else if (x >? 127) && (x <? 2048) then
         String (fromCharCode (bor (shr x 6) 192))
           (String (fromCharCode (bor (band x 63) 128)) "")
       else
         String (fromCharCode (bor (shr x 12) 224))
           (String (fromCharCode (bor (band (shr x 6) 63) 128))
              (String (fromCharCode (bor (band x 63) 128)) "")))
      ++ J_loop k'
  end.

Definition J (k : string) : string := J_loop (replace_rn k).

(** The shift amounts [S], [Q], [N], [M], ... of the source; the underscore
    keeps [S], [O] and [N] for the natural numbers. *)
Definition S_ := 7.
Definition Q_ := 12.
Definition N_ := 17.
Definition M_ := 22.
Definition A_ := 5.
Definition z_ := 9.
Definition y_ := 14.
Definition w_ := 20.
Definition o_ := 4.
Definition m_ := 11.
Definition l_ := 16.
Definition j_ := 23.
Definition U_ := 6.
Definition T_ := 10.
Definition R_ := 15.
Definition O_ := 21.

(** One pass of the main [for] loop: the 64 steps on the block at [P]. *)
Definition block (C : list Z) (P : Z) (st : Z * Z * Z * Z) : Z * Z * Z * Z :=
  let '(Y, X, W, V) := st in
  let h := Y in let E := X in let v := W in let g := V in
  let Y := u Y X W V (array_get C (P + 0)) S_ 3614090360 in
  let V := u V Y X W (array_get C (P + 1)) Q_ 3905402710 in
  let W := u W V Y X (array_get C (P + 2)) N_ 606105819 in
  let X := u X W V Y (array_get C (P + 3)) M_ 3250441966 in
  let Y := u Y X W V (array_get C (P + 4)) S_ 4118548399 in
  let V := u V Y X W (array_get C (P + 5)) Q_ 1200080426 in
  let W := u W V Y X (array_get C (P + 6)) N_ 2821735955 in
  let X := u X W V Y (array_get C (P + 7)) M_ 4249261313 in
  let Y := u Y X W V (array_get C (P + 8)) S_ 1770035416 in
  let V := u V Y X W (array_get C (P + 9)) Q_ 2336552879 in
  let W := u W V Y X (array_get C (P + 10)) N_ 4294925233 in
  let X := u X W V Y (array_get C (P + 11)) M_ 2304563134 in
  let Y := u Y X W V (array_get C (P + 12)) S_ 1804603682 in
  let V := u V Y X W (array_get C (P + 13)) Q_ 4254626195 in
  let W := u W V Y X (array_get C (P + 14)) N_ 2792965006 in
  let X := u X W V Y (array_get C (P + 15)) M_ 1236535329 in
  let Y := f Y X W V (array_get C (P + 1)) A_ 4129170786 in
  let V := f V Y X W (array_get C (P + 6)) z_ 3225465664 in
  let W := f W V Y X (array_get C (P + 11)) y_ 643717713 in
  let X := f X W V Y (array_get C (P + 0)) w_ 3921069994 in
  let Y := f Y X W V (array_get C (P + 5)) A_ 3593408605 in
  let V := f V Y X W (array_get C (P + 10)) z_ 38016083 in
  let W := f W V Y X (array_get C (P + 15)) y_ 3634488961 in
  let X := f X W V Y (array_get C (P + 4)) w_ 3889429448 in
  let Y := f Y X W V (array_get C (P + 9)) A_ 568446438 in
  let V := f V Y X W (array_get C (P + 14)) z_ 3275163606 in
  let W := f W V Y X (array_get C (P + 3)) y_ 4107603335 in
  let X := f X W V Y (array_get C (P + 8)) w_ 1163531501 in
  let Y := f Y X W V (array_get C (P + 13)) A_ 2850285829 in
  let V := f V Y X W (array_get C (P + 2)) z_ 4243563512 in
  let W := f W V Y X (array_get C (P + 7)) y_ 1735328473 in
  let X := f X W V Y (array_get C (P + 12)) w_ 2368359562 in
  let Y := D Y X W V (array_get C (P + 5)) o_ 4294588738 in
  let V := D V Y X W (array_get C (P + 8)) m_ 2272392833 in
  let W := D W V Y X (array_get C (P + 11)) l_ 1839030562 in
  let X := D X W V Y (array_get C (P + 14)) j_ 4259657740 in
  let Y := D Y X W V (array_get C (P + 1)) o_ 2763975236 in
  let V := D V Y X W (array_get C (P + 4)) m_ 1272893353 in
  let W := D W V Y X (array_get C (P + 7)) l_ 4139469664 in
  let X := D X W V Y (array_get C (P + 10)) j_ 3200236656 in
  let Y := D Y X W V (array_get C (P + 13)) o_ 681279174 in
  let V := D V Y X W (array_get C (P + 0)) m_ 3936430074 in
  let W := D W V Y X (array_get C (P + 3)) l_ 3572445317 in
  let X := D X W V Y (array_get C (P + 6)) j_ 76029189 in
  let Y := D Y X W V (array_get C (P + 9)) o_ 3654602809 in
  let V := D V Y X W (array_get C (P + 12)) m_ 3873151461 in
  let W := D W V Y X (array_get C (P + 15)) l_ 530742520 in
  let X := D X W V Y (array_get C (P + 2)) j_ 3299628645 in
  let Y := t Y X W V (array_get C (P + 0)) U_ 4096336452 in
  let V := t V Y X W (array_get C (P + 7)) T_ 1126891415 in
  let W := t W V Y X (array_get C (P + 14)) R_ 2878612391 in
  let X := t X W V Y (array_get C (P + 5)) O_ 4237533241 in
  let Y := t Y X W V (array_get C (P + 12)) U_ 1700485571 in
  let V := t V Y X W (array_get C (P + 3)) T_ 2399980690 in
  let W := t W V Y X (array_get C (P + 10)) R_ 4293915773 in
  let X := t X W V Y (array_get C (P + 1)) O_ 2240044497 in
  let Y := t Y X W V (array_get C (P + 8)) U_ 1873313359 in
  let V := t V Y X W (array_get C (P + 15)) T_ 4264355552 in
  let W := t W V Y X (array_get C (P + 6)) R_ 2734768916 in
  let X := t X W V Y (array_get C (P + 13)) O_ 1309151649 in
  let Y := t Y X W V (array_get C (P + 4)) U_ 4149444226 in
  let V := t V Y X W (array_get C (P + 11)) T_ 3174756917 in
  let W := t W V Y X (array_get C (P + 2)) R_ 718787259 in
  let X := t X W V Y (array_get C (P + 9)) O_ 3951481745 in
  let Y := K Y h in
  let X := K X E in
  let W := K W v in
  let V := K V g in
  (Y, X, W, V).

(** [for (P = 0; P < C.length; P += 16)]; [P] grows by 16 at each pass, so
    [length C] passes are never exhausted before the test fails. *)
Fixpoint blocks (fuel : nat) (C : list Z) (P : Z) (st : Z * Z * Z * Z) : Z * Z * Z * Z :=
  match fuel with
  | O => st
  | S fuel' =>
      if P <? Z.of_nat (List.length C) then blocks fuel' C (P + 16) (block C P st)
      else st
  end.

Definition md5 (s : string) : string :=
  let s := J s in
  let C := e s in
  let '(Y, X, W, V) :=
    blocks (List.length C) C 0 (1732584193, 4023233417, 2562383102, 271733878) in
  let i := B Y ++ B X ++ B W ++ B V in
  toLowerCase i.

End Md5.

(** ** The client: state, header, queue, payload *)

Module JOA.
Import JS.

(** [char.tab] and [char.eol]. *)
Definition char_tab : string := String (ascii_of_nat 9) "".
Definition char_eol : string := String (ascii_of_nat 10) "".

Definition protocolVersion : string := "MuniRPCv2:".

(** The enumeration [messageType]. *)
Module messageType.
Definition ZCLReport := VNum 0.
Definition ZCLMultiReport := VNum 1.
Definition ZCLCommand := VNum 2.
Definition TAZFrame := VNum 3.
Definition TimeIndication := VStr "t".
End messageType.

Record header_object := {
  attribute : object;
  gatewayIdentifier : value
}.

(** What the property [JOA.header] refers to: the object of the variable
    [header] itself, as the module leaves it ([JOA.header = header]), or an
    object of the caller's, once [headers] has replaced it. *)
Inductive header_ref :=
| Default
| Supplied (obj : header_object).

(** The variables of the module closure that the payload pipeline uses.
    ([url] is read by [post] only.) *)
Record state := {
  header : header_object;
  JOA_header : header_ref;
  messageId : Z;
  messages : list object
}.

(** The state the module starts in. *)
Definition init : state := {|
  header := {|
    attribute := [("vendor", VNull); ("hash", VNull); ("secret", VNull); ("time", VNull)];
    gatewayIdentifier := VNull |};
  JOA_header := Default;
  messageId := 0;
  messages := []
|}.

(** The object that [JOA.header] evaluates to. *)
Definition JOA_header_object (st : state) : header_object :=
  match JOA_header st with
  | Default => header st
  | Supplied obj => obj
  end.

(** Sequencing of evaluations that can throw. *)
Definition bind {A B} (c : completion A) (k : A -> completion B) : completion B :=
  match c with
  | Normal a => k a
  | Throw e => Throw e
  end.

Notation "x <- c ;; k" := (bind c (fun x => k))
  (at level 61, c at next level, right associativity).

(** State passing for the functions that update the closure. *)
Definition M (A : Type) : Type := state -> completion A * state.

Definition ret {A} (a : A) : M A := fun st => (Normal a, st).

Definition raise {A} (e : error) : M A := fun st => (Throw e, st).

Definition bindM {A B} (m : M A) (k : A -> M B) : M B :=
  fun st =>
    match m st with
    | (Normal a, st') => k a st'
    | (Throw e, st') => (Throw e, st')
    end.

Notation "x <~ m ;; k" := (bindM m (fun x => k))
  (at level 61, m at next level, right associativity).

(** [headers(obj)]. *)
Definition headers (obj : header_object) : M unit :=
  fun st =>
    (Normal tt,
     {| header := header st; JOA_header := Supplied obj;
        messageId := messageId st; messages := messages st |}).

(** The callback arguments [(err, null)] and [(null, result)]. *)
Inductive callback :=
| cb_err (err : string)
| cb_ok (result : string).

(** [(attributeValue !== null && attributeValue.length > 0) || attributeValue] *)
Definition attribute_is_set (attributeValue : value) : completion bool :=
  l <- (if negb (strict_eq attributeValue VNull)
        then length_gt_0 attributeValue else Normal false) ;;
  Normal (l || truthy attributeValue).

(** The [for] loop of [constructHeader] over [headerAttributeKeys]. *)
Fixpoint constructHeader_loop (attrs : object) (headerAttributeKeys : list string)
    (headerStr : string) : completion string :=
  match headerAttributeKeys with
  | [] => Normal headerStr
  | attributeKey :: rest =>
      let attributeValue := get attrs attributeKey in
      c <- attribute_is_set attributeValue ;;
      if c then
        if String.eqb attributeKey "time" then
          constructHeader_loop attrs rest (headerStr ++ ",time")
        else if negb (String.eqb attributeKey "secret")
                && negb (String.eqb attributeKey "hash") then
          constructHeader_loop attrs rest
            (headerStr ++ "," ++ attributeKey ++ "=" ++ ToString attributeValue)
        else constructHeader_loop attrs rest headerStr
      else constructHeader_loop attrs rest headerStr
  end.

(** [constructHeader(cb)]: the keys come from the variable [header], the
    values from [JOA.header]. *)
Definition constructHeader (st : state) : completion callback :=
  let headerStr := "" in
  let headerAttributeKeys := keys (attribute (header st)) in
  let gw := gatewayIdentifier (JOA_header_object st) in
  c <- (if negb (strict_eq gw VNull) then length_gt_0 gw else Normal false) ;;
  if c then
    let headerStr := headerStr ++ protocolVersion in
    let headerStr := headerStr ++ ToString gw in
    headerStr <- constructHeader_loop (attribute (JOA_header_object st))
                   headerAttributeKeys headerStr ;;
    let headerStr := headerStr ++ char_eol in
    if negb (indexOf headerStr "vendor=" =? -1) then Normal (cb_ok headerStr)
    else Normal (cb_err "no_vendor_attribute_set")
  else Normal (cb_err "no_gatewayidentifier_set").

(** The inner loop of [constructMessages], over the keys of one message. *)
Fixpoint convert_loop (message : object) (messageKeys : list string)
    (convertedMessage : string) : string :=
  match messageKeys with
  | [] => convertedMessage
  | key :: rest =>
      convert_loop message rest
        (convertedMessage ++ (ToString (get message key) ++ char_tab))
  end.

Definition convertMessage (message : object) : string :=
  let convertedMessage := convert_loop message (keys message) "" in
  slice convertedMessage 0 (Some (-1)) ++ char_eol.

(** [constructMessages()]: the array of the converted messages. *)
Definition constructMessages (st : state) : list string :=
  map convertMessage (messages st).

(** [generateId()].  The counter is a number: [messageId++] counts exactly
    up to 2^53, the range in which the integer [messageId] stands for it. *)
Definition generateId : M Z :=
  fun st =>
    let messageId' := messageId st + 1 in
    (Normal messageId',
     {| header := header st; JOA_header := JOA_header st;
        messageId := messageId'; messages := messages st |}).

(** [messages.push(obj)]. *)
Definition push (obj : object) : M unit :=
  fun st =>
    (Normal tt,
     {| header := header st; JOA_header := JOA_header st;
        messageId := messageId st; messages := (messages st ++ [obj])%list |}).

(** [a || b] on values. *)
Definition or_else (a b : value) : value := if truthy a then a else b.

Definition addZCLReport (eui64 endpointId profileId clusterId attributeId dataTypeId
    timestamp value_ : value) : M object :=
  id <~ generateId ;;
  let obj := [("id", VNum id);
              ("messageType", messageType.ZCLReport);
              ("eui64", eui64);
              ("endpointId", or_else endpointId (VStr "0x0a"));
              ("profileId", or_else profileId (VStr "0xf100"));
              ("clusterId", clusterId);
              ("attributeId", attributeId);
              ("dataTypeId", dataTypeId);
              ("timestamp", timestamp);
              ("value", value_)] in
  _ <~ push obj ;;
  ret obj.

Definition addZCLMultiReport (eui64 endpointId profileId clusterId attributeId dataTypeId
    timestamp offset values : value) : M object :=
  id <~ generateId ;;
  let obj := [("id", VNum id);
              ("messageType", messageType.ZCLMultiReport);
              ("eui64", eui64);
              ("endpointId", or_else endpointId (VStr "0x0a"));
              ("profileId", or_else profileId (VStr "0xf100"));
              ("clusterId", clusterId);
              ("attributeId", attributeId);
              ("dataTypeId", dataTypeId);
              ("timestamp", timestamp);
              ("offset", offset);
              ("values", values)] in
  _ <~ push obj ;;
  ret obj.

(** An identifier that no scope of the module declares is looked up in the
    global object of the host; reading it throws when the host has no such
    property. *)
Fixpoint has (o : object) (k : string) : bool :=
  match o with
  | [] => false
  | (k', _) :: o' => String.eqb k' k || has o' k
  end.

Definition resolve_global (global : object) (name : string) : M value :=
  if has global name then ret (get global name) else raise ReferenceError.

(** [addZCLCommand]: [offset] is neither a parameter nor a variable of the
    module.  The properties of the literal are evaluated in order, so the id
    is generated before [offset] is read. *)
Definition addZCLCommand (global : object) (eui64 endpointId profileId clusterId
    isClusterSpecific commandId timestamp value_ : value) : M object :=
  id <~ generateId ;;
  offset <~ resolve_global global "offset" ;;
  let obj := [("id", VNum id);
              ("messageType", messageType.ZCLCommand);
              ("eui64", eui64);
              ("endpointId", or_else endpointId (VStr "0x0a"));
              ("profileId", or_else profileId (VStr "0xf100"));
              ("clusterId", clusterId);
              ("isClusterSpecific", isClusterSpecific);
              ("commandId", commandId);
              ("timestamp", timestamp);
              ("offset", offset);
              ("value", value_)] in
  _ <~ push obj ;;
  ret obj.

Definition addTime (timestamp : value) : M object :=
  id <~ generateId ;;
  let obj := [("id", VNum id);
              ("messageType", messageType.TimeIndication);
              ("timestamp", timestamp)] in
  _ <~ push obj ;;
  ret obj.

(** [clearMessages()]. *)
Definition clearMessages : M unit :=
  fun st =>
    (Normal tt,
     {| header := header st; JOA_header := JOA_header st;
        messageId := messageId st; messages := [] |}).

(** The loop of [removeMessage] on the part of the queue from index [i] on:
    the queue without the first message whose id is [id], if there is one. *)
Fixpoint removeMessage_loop (id : value) (ms : list object) : option (list object) :=
  match ms with
  | [] => None
  | m :: rest =>
      if strict_eq (get m "id") id then Some rest
      else option_map (cons m) (removeMessage_loop id rest)
  end.

Definition removeMessage (id : value) : M bool :=
  fun st =>
    match removeMessage_loop id (messages st) with
    | Some ms =>
        (Normal true,
         {| header := header st; JOA_header := JOA_header st;
            messageId := messageId st; messages := ms |})
    | None => (Normal false, st)
    end.

(** [hashJOAPayload(payload)].  (The three [console.log] calls write to the
    console only.) *)
Definition hashJOAPayload (st : state) (payload : string) : string :=
  let indexOfHashHeader := indexOf payload char_eol in
  let secret := get (attribute (JOA_header_object st)) "secret" in
  slice payload 0 (Some indexOfHashHeader)
  ++ ",hash=" ++ Md5.md5 (ToString secret ++ payload)
  ++ slice payload indexOfHashHeader None.

(** [constructJOAPayload(cb)].  [result + constructMessages()] adds an array
    to a string, which converts the array with [Array.prototype.toString]. *)
Definition constructJOAPayload (st : state) : completion callback :=
  r <- constructHeader st ;;
  match r with
  | cb_err err => Normal (cb_err err)
  | cb_ok result =>
      let attrs := attribute (JOA_header_object st) in
      if negb (truthy (get attrs "hash")) then
        Normal (cb_ok (result ++ array_ToString (constructMessages st)))
      else
        c <- (if truthy (get attrs "hash") && truthy (get attrs "secret")
              then length_gt_0 (get attrs "secret") else Normal false) ;;
        if c then
          Normal (cb_ok (hashJOAPayload st
                           (result ++ array_ToString (constructMessages st))))
        else Normal (cb_err "no_secret_set")
  end.

(** [toString()]. *)
Definition toString (st : state) : completion string :=
  r <- constructJOAPayload st ;;
  match r with
  | cb_err err => Normal err
  | cb_ok result => Normal result
  end.

(** Assignments a caller makes through the exposed property:
    [JOA.header.attribute[k] = v] and [JOA.header.gatewayIdentifier = v].
    They write to the object [JOA.header] refers to, which is the module's
    own [header] until [headers] has replaced it. *)
Definition assign_attribute (k : string) (v : value) : M unit :=
  fun st =>
    let upd (h : header_object) :=
      {| attribute := set (attribute h) k v;
         gatewayIdentifier := gatewayIdentifier h |} in
    (Normal tt,
     match JOA_header st with
     | Default =>
         {| header := upd (header st); JOA_header := Default;
            messageId := messageId st; messages := messages st |}
     | Supplied obj =>
         {| header := header st; JOA_header := Supplied (upd obj);
            messageId := messageId st; messages := messages st |}
     end).

Definition assign_gatewayIdentifier (v : value) : M unit :=
  fun st =>
    let upd (h : header_object) :=
      {| attribute := attribute h; gatewayIdentifier := v |} in
    (Normal tt,
     match JOA_header st with
     | Default =>
         {| header := upd (header st); JOA_header := Default;
            messageId := messageId st; messages := messages st |}
     | Supplied obj =>
         {| header := header st; JOA_header := Supplied (upd obj);
            messageId := messageId st; messages := messages st |}
     end).

(** *** Sequences of queue operations *)

Inductive op :=
| AddZCLReport (eui64 endpointId profileId clusterId attributeId dataTypeId
    timestamp value_ : value)
| AddZCLMultiReport (eui64 endpointId profileId clusterId attributeId dataTypeId
    timestamp offset values : value)
| AddZCLCommand (global : object) (eui64 endpointId profileId clusterId
    isClusterSpecific commandId timestamp value_ : value)
| AddTime (timestamp : value)
| RemoveMessage (id : value)
| ClearMessages.

(** The Report a call returned, if it returned. *)
Definition returned (r : completion object * state) : list object * state :=
  match r with
  | (Normal obj, st) => ([obj], st)
  | (Throw _, st) => ([], st)
  end.

(** One operation: the Report it created, if any, and the state after it.
    A thrown error leaves the caller with the state reached so far. *)
Definition step (o : op) (st : state) : list object * state :=
  match o with
  | AddZCLReport a b c d e f g h => returned (addZCLReport a b c d e f g h st)
  | AddZCLMultiReport a b c d e f g h i =>
      returned (addZCLMultiReport a b c d e f g h i st)
  | AddZCLCommand global a b c d e f g h =>
      returned (addZCLCommand global a b c d e f g h st)
  | AddTime ts => returned (addTime ts st)
  | RemoveMessage id => ([], snd (removeMessage id st))
  | ClearMessages => ([], snd (clearMessages st))
  end.

(** A sequence of operations: the Reports created, in order of creation,
    and the final state. *)
Fixpoint run (ops : list op) (st : state) : list object * state :=
  match ops with
  | [] => ([], st)
  | o :: ops' =>
      let '(created, st') := step o st in
      let '(created', st'') := run ops' st' in
      ((created ++ created')%list, st'')
  end.

(** *** Vocabulary of the properties *)

(** [s] has an occurrence of [pat]: the test [s.indexOf(pat) !== -1]. *)
Definition contains (s pat : string) : bool := negb (indexOf s pat =? -1).

Fixpoint occurs (c : ascii) (s : string) : bool :=
  match s with
  | "" => false
  | String c' s' => Ascii.eqb c' c || occurs c s'
  end.

Definition lower_hex_char (c : ascii) : bool :=
  let x := charCode c in
  ((48 <=? x) && (x <=? 57)) || ((97 <=? x) && (x <=? 102)).

Fixpoint lower_hex (s : string) : bool :=
  match s with
  | "" => true
  | String c s' => lower_hex_char c && lower_hex s'
  end.

(** The keys of the attribute schema the module declares. *)
Definition schema_keys : list string := ["vendor"; "hash"; "secret"; "time"].

(** The rendering of a Report in the words of the specification: the field
    values joined by single tabs, closed by a line feed. *)
Definition render_spec (message : object) : string :=
  join char_tab (map (fun kv => ToString (snd kv)) message) ++ char_eol.

(** The serialized queue in the words of the specification: the rendered
    Reports one after the other, in queue order. *)
Definition serialize_spec (ms : list object) : string :=
  String.concat "" (map render_spec ms).

(** The test of [removeMessage]: [messages[i].id === id]. *)
Definition has_id (id : value) (m : object) : bool := strict_eq (get m "id") id.

(** The ids [ids] were handed out, in this order, while the counter went
    from [lo] to [hi]. *)
Definition ids_within (lo hi : Z) (ids : list Z) : Prop :=
  StronglySorted Z.lt ids /\ Forall (fun i => lo < i <= hi) ids /\ lo <= hi.

(** The field shape of a ZCL command as the documentation gives it. *)
Definition ZCLCommand_shape : list string :=
  ["id"; "messageType"; "eui64"; "endpointId"; "profileId"; "clusterId";
   "isClusterSpecific"; "commandId"; "timestamp"; "value"].

End JOA.

(** ** The scenario of the reference test *)

Module Scenario.
Import JS JOA.

(** The state the reference test reaches before its last case: three
    reports added, the third removed. *)
Definition before : state :=
  let st := snd (addZCLReport (VNum 123) (VStr "a") (VStr "b") (VStr "c") (VStr "d")
                   (VStr "e") (VNum 1000) (VStr "hello") init) in
  let st := snd (addZCLReport (VNum 123) VNull VNull (VStr "c") (VStr "d")
                   (VStr "e") (VNum 1000) (VStr "hello") st) in
  let st := snd (addZCLReport (VNum 123) VNull VNull (VStr "c") (VStr "d")
                   (VStr "e") (VNum 1000) (VStr "hello") st) in
  snd (removeMessage (VNum 3) st).

Definition config : header_object := {|
  attribute := [("vendor", VStr "androidnode"); ("time", VBool true);
                ("hash", VBool true);
                ("secret", VStr "waiga6ieGo4eefo2thaQuash4ahc4aid")];
  gatewayIdentifier := VStr "10.32.16.1" |}.

(** [clearMessages(); addZCLReport(...); headers(...)] *)
Definition prepare (st : state) : state :=
  let st := snd (clearMessages st) in
  let st := snd (addZCLReport (VStr "f104:00ff:0000:0001") VNull VNull (VStr "0x0402")
                   (VStr "0x0000") (VStr "0x20") (VNum 1474552384381) (VStr "1") st) in
  snd (headers config st).

Definition payload : string :=
  "MuniRPCv2:10.32.16.1,vendor=androidnode,time,hash=2419746b3a7ed995a1caadb93c4973c3"
  ++ char_eol
  ++ "4" ++ char_tab ++ "0" ++ char_tab ++ "f104:00ff:0000:0001" ++ char_tab
  ++ "0x0a" ++ char_tab ++ "0xf100" ++ char_tab ++ "0x0402" ++ char_tab
  ++ "0x0000" ++ char_tab ++ "0x20" ++ char_tab ++ "1474552384381" ++ char_tab
  ++ "1" ++ char_eol.

(** The header objects of the other cases of the reference test, and the
    client configured with one of them. *)
Definition test_config (vendor : value) (time hash : bool) (secret gw : value)
    : header_object := {|
  attribute := [("vendor", vendor); ("time", VBool time); ("hash", VBool hash);
                ("secret", secret)];
  gatewayIdentifier := gw |}.

Definition configured (obj : header_object) : state := snd (headers obj init).

(** A client with two queued reports and an unhashed header. *)
Definition two_reports : state :=
  let st := snd (addZCLReport (VStr "f104:00ff:0000:0001") VNull VNull (VStr "0x0402")
                   (VStr "0x0000") (VStr "0x20") (VNum 1474552384381) (VStr "1") init) in
  let st := snd (addZCLReport (VStr "f104:00ff:0000:0001") VNull VNull (VStr "0x0402")
                   (VStr "0x0000") (VStr "0x20") (VNum 1474552384382) (VStr "2") st) in
  snd (headers (test_config (VStr "debug") false false VNull (VStr "0.0.0.0")) st).

Definition first_line : string :=
  join char_tab ["1"; "0"; "f104:00ff:0000:0001"; "0x0a"; "0xf100"; "0x0402"; "0x0000";
                 "0x20"; "1474552384381"; "1"] ++ char_eol.

Definition second_line : string :=
  join char_tab ["2"; "0"; "f104:00ff:0000:0001"; "0x0a"; "0xf100"; "0x0402"; "0x0000";
                 "0x20"; "1474552384382"; "2"] ++ char_eol.

(** The default header object configured in place,
    [JOA.header.gatewayIdentifier = "10.0.0.1"; JOA.header.attribute.vendor = "acme"],
    and then given one more attribute, [JOA.header.attribute.room = "attic"]. *)
Definition in_place : state :=
  let st := snd (assign_gatewayIdentifier (VStr "10.0.0.1") init) in
  snd (assign_attribute "vendor" (VStr "acme") st).

Definition in_place_extra : state :=
  snd (assign_attribute "room" (VStr "attic") in_place).

End Scenario.

(** ** The transport: [JOA.url], [setUrl], [post] *)

Module Transport.
Import JS JOA.

(** The property [JOA.url] beside the variables of the closure. *)
Record client := {
  JOA_url : value;
  closure : state
}.

(** The client the module starts as: [JOA.url = url], with [url] null. *)
Definition start : client := {| JOA_url := VNull; closure := init |}.

(** [setUrl(url)]; the call [JOA(url)] makes the same assignment. *)
Definition setUrl (url : value) (c : client) : client :=
  {| JOA_url := url; closure := closure c |}.

(** What [post(cb)] has done when it returns: called [cb(err, null)] with
    the error of the composition, or opened a POST request to [JOA.url] and
    sent the payload. *)
Inductive posted :=
| post_cb (err : string)
| post_send (url : value) (params : string).

Definition post (c : client) : completion posted :=
  r <- constructJOAPayload (closure c) ;;
  match r with
  | cb_err err => Normal (post_cb err)
  | cb_ok result => Normal (post_send (JOA_url c) result)
  end.

(** The handler [onreadystatechange] once the request is [DONE], on the
    closure as it is at that moment: [http.status == 200] clears the queue
    and calls [cb(null, http.responseText)], any other status calls
    [cb(http.statusText, null)]. *)
Definition post_done (status : Z) (responseText statusText : string) : M callback :=
  if status =? 200 then
    _ <~ clearMessages ;;
    ret (cb_ok responseText)
  else ret (cb_err statusText).

End Transport.

(** ** Vocabulary of the further properties *)

Module Facts.
Import JS JOA.

(** Rotation of a 32-bit word to the left by [s] bits, as a sum. *)
Definition rotl32 (a s : Z) : Z :=
  ToUint32 a * 2 ^ s + ToUint32 a / 2 ^ (32 - s).

(** The number of 32-bit words of a padded message of [n] characters. *)
Definition padded_words (n : Z) : Z := ((n + 8) / 64 + 1) * 16.

(** All code units are below 128. *)
Fixpoint ascii_only (s : string) : bool :=
  match s with
  | "" => true
  | String c s' => (charCode c <? 128) && ascii_only s'
  end.

(** The last character of [s] is [c]. *)
Fixpoint ends_with (c : ascii) (s : string) : bool :=
  match s with
  | "" => false
  | String c' "" => Ascii.eqb c' c
  | String _ s' => ends_with c s'
  end.

(** The queue as the add functions leave it: the ids are numbers in
    strictly increasing order, none above the counter, and no Report has
    two properties of the same name. *)
Definition queue_ok (st : state) : Prop :=
  exists ids,
    map (fun m => get m "id") (messages st) = map VNum ids
    /\ StronglySorted Z.lt ids
    /\ Forall (fun i => i <= messageId st) ids
    /\ Forall (fun m => NoDup (keys m)) (messages st).

(** The three error codes of the composition. *)
Definition error_codes : list string :=
  ["no_gatewayidentifier_set"; "no_vendor_attribute_set"; "no_secret_set"].

(** 2^53, the largest value up to which [messageId++] is exact: a counter
    that has reached it keeps it, since 2^53 + 1 is not a number. *)
Definition max_exact_counter : Z := 9007199254740992.

(** What changes the closure, one run-to-completion step at a time: a queue
    operation of the caller, or the handler of a request that is done. *)
Inductive event :=
| Queue (o : op)
| Done (status : Z) (responseText statusText : string).

Definition handle (e : event) (st : state) : state :=
  match e with
  | Queue o => snd (step o st)
  | Done status responseText statusText =>
      snd (Transport.post_done status responseText statusText st)
  end.

Fixpoint handle_all (es : list event) (st : state) : state :=
  match es with
  | [] => st
  | e :: es' => handle_all es' (handle e st)
  end.

End Facts.

(** * Properties *)

Import JS JOA.

(** ** Strings: [indexOf], [slice] *)

Section StringFacts.

Lemma len_app (a b : string) : len (a ++ b) = len a + len b.
Proof.
  unfold len. induction a as [|c a IH]; simpl String.length; [simpl; lia | lia].
Qed.

Lemma len_nonneg (s : string) : 0 <= len s.
Proof. unfold len. lia. Qed.

Lemma append_nil_r (s : string) : s ++ "" = s.
Proof. induction s as [|c s IH]; simpl; [reflexivity | now rewrite IH]. Qed.

Lemma append_assoc (a b c : string) : (a ++ b) ++ c = a ++ (b ++ c).
Proof. induction a as [|x a IH]; simpl; [reflexivity | now rewrite IH]. Qed.

(** Searching from a later start index only shifts the answer. *)
Lemma indexOf_from_shift (s pat : string) (i : Z) :
  (indexOf_from i s pat = -1 /\ indexOf_from 0 s pat = -1)
  \/ (0 <= indexOf_from 0 s pat /\ indexOf_from i s pat = i + indexOf_from 0 s pat).
Proof.
  revert i. induction s as [|c s IH]; intros i; cbn [indexOf_from].
  - destruct (prefix pat ""); [right | left]; lia.
  - destruct (prefix pat (String c s)).
    + right. lia.
    + destruct (IH (0 + 1)) as [[H1 H0] | [H0 H1]];
        destruct (IH (i + 1)) as [[Hi H0'] | [H0' Hi]]; lia.
Qed.

Lemma contains_cons (c : ascii) (s pat : string) :
  contains (String c s) pat = prefix pat (String c s) || contains s pat.
Proof.
  unfold contains, indexOf. cbn [indexOf_from].
  destruct (prefix pat (String c s)); [reflexivity|].
  cbn [orb]. destruct (indexOf_from_shift s pat (0 + 1)) as [[H1 H0] | [H0 H1]].
  - rewrite H1, H0. reflexivity.
  - rewrite H1.
    destruct (0 + 1 + indexOf_from 0 s pat =? -1) eqn:E1;
      destruct (indexOf_from 0 s pat =? -1) eqn:E2; try reflexivity; lia.
Qed.

Lemma contains_nil (pat : string) : contains "" pat = prefix pat "".
Proof.
  unfold contains, indexOf. destruct pat; reflexivity.
Qed.

Lemma prefix_nil (s : string) : prefix "" s = true.
Proof. destruct s; reflexivity. Qed.

(** A pattern that lacks the character [c] cannot reach into a suffix that
    starts with [c]. *)
Lemma prefix_stops_at (pat s rest : string) (c : ascii) :
  occurs c pat = false ->
  pat <> "" ->
  prefix pat (s ++ String c rest) = prefix pat s.
Proof.
  revert s. induction pat as [|a pat IH]; intros s Hocc Hne; [congruence|].
  simpl in Hocc. apply orb_false_iff in Hocc as [Hac Hocc].
  destruct s as [|b s]; simpl.
  - destruct (ascii_dec a c) as [->|]; [|reflexivity].
    rewrite Ascii.eqb_refl in Hac. discriminate.
  - destruct (ascii_dec a b); [|reflexivity].
    destruct pat as [|a' pat'].
    + now rewrite !prefix_nil.
    + apply IH; [assumption | discriminate].
Qed.

Lemma contains_app_stop (pat s rest : string) (c : ascii) :
  occurs c pat = false ->
  pat <> "" ->
  contains (String c rest) pat = false ->
  contains (s ++ String c rest) pat = contains s pat.
Proof.
  intros Hocc Hne Hrest. induction s as [|b s IH].
  - simpl. rewrite Hrest, contains_nil.
    destruct pat; [congruence | reflexivity].
  - change (String b s ++ String c rest) with (String b (s ++ String c rest)).
    rewrite !contains_cons, IH.
    change (String b (s ++ String c rest)) with (String b s ++ String c rest).
    now rewrite prefix_stops_at.
Qed.

(** The index of the first occurrence of a character. *)
Lemma indexOf_from_char_first (pre rest : string) (c : ascii) (i : Z) :
  0 <= i ->
  indexOf_from i pre (String c "") = -1 ->
  indexOf_from i (pre ++ String c rest) (String c "") = i + len pre.
Proof.
  revert i. induction pre as [|b pre IH]; intros i Hi H.
  - simpl. destruct (ascii_dec c c); [|congruence].
    destruct rest; unfold len; simpl; lia.
  - simpl in H |- *. destruct (ascii_dec c b).
    + destruct pre; simpl in H; lia.
    + rewrite IH by (assumption || lia).
      unfold len. simpl String.length. lia.
Qed.

Lemma indexOf_char_first (pre rest : string) (c : ascii) :
  indexOf pre (String c "") = -1 ->
  indexOf (pre ++ String c rest) (String c "") = len pre.
Proof.
  intros H. unfold indexOf. rewrite indexOf_from_char_first; [lia | lia | exact H].
Qed.

(** Every string that has a character [c] splits at its first [c]. *)
Lemma split_at_first (s rest : string) (c : ascii) :
  exists pre post,
    s ++ String c rest = pre ++ String c post
    /\ indexOf pre (String c "") = -1
    /\ exists mid, post = mid ++ rest /\ s ++ String c "" = pre ++ String c mid.
Proof.
  induction s as [|b s IH].
  - exists "", rest. split; [reflexivity|]. split; [reflexivity|].
    exists "". split; reflexivity.
  - destruct (ascii_dec c b) as [<-|Hne].
    + exists "", (s ++ String c rest). split; [reflexivity|]. split; [reflexivity|].
      exists (s ++ String c ""). split; [|reflexivity].
      now rewrite append_assoc.
    + destruct IH as (pre & post & Heq & Hno & mid & Hpost & Hmid).
      exists (String b pre), post. split; [|split].
      * simpl. now rewrite Heq.
      * unfold indexOf in *. cbn [indexOf_from prefix].
        destruct (ascii_dec c b); [congruence|].
        destruct (indexOf_from_shift pre (String c "") (0 + 1)) as [[H1 _] | [H0 _]]; lia.
      * exists mid. split; [assumption|]. simpl. now rewrite Hmid.
Qed.

Lemma substring_prefix (a b : string) :
  substring 0 (String.length a) (a ++ b) = a.
Proof.
  induction a as [|c a IH]; simpl.
  - destruct b; reflexivity.
  - now rewrite IH.
Qed.

Lemma substring_all (s : string) : substring 0 (String.length s) s = s.
Proof.
  induction s as [|c s IH]; simpl; [reflexivity | now rewrite IH].
Qed.

Lemma substring_suffix (a b : string) :
  substring (String.length a) (String.length b) (a ++ b) = b.
Proof.
  induction a as [|c a IH]; simpl; [apply substring_all | exact IH].
Qed.

(** [(a + b).slice(0, a.length)] and [(a + b).slice(a.length)]. *)
Lemma slice_prefix (a b : string) : slice (a ++ b) 0 (Some (len a)) = a.
Proof.
  unfold slice, clamp. rewrite len_app.
  pose proof (len_nonneg a). pose proof (len_nonneg b).
  replace (0 <? 0) with false by reflexivity.
  replace (len a <? 0) with false by (symmetry; apply Z.ltb_ge; lia).
  rewrite !Z.min_l, Z.max_l by lia.
  replace (Z.to_nat 0) with 0%nat by reflexivity.
  replace (Z.to_nat (len a - 0)) with (String.length a) by (unfold len; lia).
  apply substring_prefix.
Qed.

Lemma slice_suffix (a b : string) : slice (a ++ b) (len a) None = b.
Proof.
  unfold slice, clamp. rewrite len_app.
  pose proof (len_nonneg a). pose proof (len_nonneg b).
  replace (len a <? 0) with false by (symmetry; apply Z.ltb_ge; lia).
  rewrite Z.min_l, Z.max_l by lia.
  replace (Z.to_nat (len a)) with (String.length a) by (unfold len; lia).
  replace (Z.to_nat (len a + len b - len a)) with (String.length b)
    by (unfold len; lia).
  apply substring_suffix.
Qed.

(** [(a + c).slice(0, -1)] for a one-character [c]. *)
Lemma slice_drop_last (a : string) (c : ascii) :
  slice (a ++ String c "") 0 (Some (-1)) = a.
Proof.
  rewrite <- (slice_prefix a (String c "")) at 2.
  unfold slice, clamp. rewrite len_app.
  pose proof (len_nonneg a).
  replace (len (String c "")) with 1 by reflexivity.
  replace (-1 <? 0) with true by reflexivity.
  replace (len a <? 0) with false by (symmetry; apply Z.ltb_ge; lia).
  rewrite (Z.max_l (len a + 1 + -1)) by lia.
  rewrite (Z.min_l (len a)) by lia.
  do 2 f_equal. lia.
Qed.

End StringFacts.

(** ** The end-to-end scenario *)

(** C1. From any state whose id counter is at 3 (three reports were created
    before), clearing the queue, adding the ZCL report of the scenario and
    configuring the header gives exactly the payload of the reference
    test, with the digest 2419746b3a7ed995a1caadb93c4973c3 and the id 4. *)
Theorem end_to_end_scenario (st : state) :
  keys (attribute (header st)) = schema_keys ->
  messageId st = 3 ->
  constructJOAPayload (Scenario.prepare st) = Normal (cb_ok Scenario.payload)
  /\ toString (Scenario.prepare st) = Normal Scenario.payload.
Proof.
  intros Hkeys Hid.
  destruct st as [hd jh mid msgs]. simpl in Hkeys, Hid. subst mid.
  unfold toString, constructJOAPayload, constructHeader.
  cbn [Scenario.prepare clearMessages addZCLReport headers bindM generateId push ret
       snd fst header JOA_header messageId messages JOA_header_object].
  rewrite Hkeys. vm_compute. split; reflexivity.
Qed.

Lemma end_to_end_scenario_witness :
  (keys (attribute (header Scenario.before)) = schema_keys
   /\ messageId Scenario.before = 3)
  /\ toString (Scenario.prepare Scenario.before) = Normal Scenario.payload.
Proof.
  split.
  - split; reflexivity.
  - apply (end_to_end_scenario Scenario.before); reflexivity.
Defined.

(** ** The gateway identifier *)

(** C4. With the gateway identifier [null] or empty, header construction,
    composition and [toString] all report [no_gatewayidentifier_set],
    whatever the attributes and the queue. *)
Theorem gatewayIdentifier_is_mandatory (st : state) :
  gatewayIdentifier (JOA_header_object st) = VNull
  \/ gatewayIdentifier (JOA_header_object st) = VStr "" ->
  constructHeader st = Normal (cb_err "no_gatewayidentifier_set")
  /\ constructJOAPayload st = Normal (cb_err "no_gatewayidentifier_set")
  /\ toString st = Normal "no_gatewayidentifier_set".
Proof.
  intros H.
  assert (Hh : constructHeader st = Normal (cb_err "no_gatewayidentifier_set")).
  { unfold constructHeader. destruct H as [-> | ->]; reflexivity. }
  unfold toString, constructJOAPayload. rewrite Hh. repeat split.
Qed.

Lemma gatewayIdentifier_is_mandatory_witness :
  toString (Scenario.configured
              (Scenario.test_config (VStr "debug") false false VNull (VStr "")))
  = Normal "no_gatewayidentifier_set".
Proof.
  apply gatewayIdentifier_is_mandatory. right. reflexivity.
Defined.

(** ** The queue *)

(** C9. [addZCLReport] puts ["0x0a"] for a missing (falsy) endpointId and
    ["0xf100"] for a missing profileId, keeps a supplied (truthy) value as
    it is, appends the Report to the queue and returns it. *)
Theorem addZCLReport_defaults
    (eui64 endpointId profileId clusterId attributeId dataTypeId timestamp value_ : value)
    (st : state) :
  exists obj,
    addZCLReport eui64 endpointId profileId clusterId attributeId dataTypeId
      timestamp value_ st
    = (Normal obj,
       {| header := header st; JOA_header := JOA_header st;
          messageId := messageId st + 1;
          messages := (messages st ++ [obj])%list |})
    /\ get obj "endpointId" = (if truthy endpointId then endpointId else VStr "0x0a")
    /\ get obj "profileId" = (if truthy profileId then profileId else VStr "0xf100")
    /\ get obj "id" = VNum (messageId st + 1)
    /\ keys obj = ["id"; "messageType"; "eui64"; "endpointId"; "profileId";
                   "clusterId"; "attributeId"; "dataTypeId"; "timestamp"; "value"]
    /\ map snd obj = [VNum (messageId st + 1); messageType.ZCLReport; eui64;
                      get obj "endpointId"; get obj "profileId"; clusterId;
                      attributeId; dataTypeId; timestamp; value_].
Proof.
  exists [("id", VNum (messageId st + 1)); ("messageType", messageType.ZCLReport);
          ("eui64", eui64); ("endpointId", or_else endpointId (VStr "0x0a"));
          ("profileId", or_else profileId (VStr "0xf100")); ("clusterId", clusterId);
          ("attributeId", attributeId); ("dataTypeId", dataTypeId);
          ("timestamp", timestamp); ("value", value_)].
  repeat split.
Qed.

(** C3. [addZCLCommand] reads the identifier [offset], which the module does
    not declare.  On a host without a global of that name the call throws a
    [ReferenceError] after the id was taken and before anything is queued;
    on a host that has one, the Report carries an [offset] field, so its
    shape is not the one of a ZCL command either. *)
Theorem addZCLCommand_offset (global : object)
    (eui64 endpointId profileId clusterId isClusterSpecific commandId timestamp
       value_ : value) (st : state) :
  let r := addZCLCommand global eui64 endpointId profileId clusterId
             isClusterSpecific commandId timestamp value_ st in
  messageId (snd r) = messageId st + 1
  /\ if has global "offset"
     then exists obj,
            fst r = Normal obj
            /\ messages (snd r) = (messages st ++ [obj])%list
            /\ keys obj = ["id"; "messageType"; "eui64"; "endpointId"; "profileId";
                           "clusterId"; "isClusterSpecific"; "commandId";
                           "timestamp"; "offset"; "value"]
            /\ keys obj <> ZCLCommand_shape
     else fst r = Throw ReferenceError /\ messages (snd r) = messages st.
Proof.
  unfold addZCLCommand, bindM, generateId, resolve_global. cbn zeta.
  destruct (has global "offset"); cbn.
  - split; [reflexivity|]. eexists. repeat split. discriminate.
  - repeat split.
Qed.

(** The call of the claim, on a host that defines no [offset]. *)
Lemma addZCLCommand_throws :
  fst (addZCLCommand [] (VStr "f104:00ff:0000:0001") VNull VNull (VStr "0x0402")
         (VBool true) (VStr "0x00") (VNum 1474552384381) (VStr "1") init)
  = Throw ReferenceError.
Proof. reflexivity. Qed.

Lemma removeMessage_loop_spec (id : value) (ms : list object) :
  if existsb (has_id id) ms
  then exists l1 m l2,
         ms = (l1 ++ m :: l2)%list
         /\ forallb (fun m' => negb (has_id id m')) l1 = true
         /\ has_id id m = true
         /\ removeMessage_loop id ms = Some (l1 ++ l2)%list
  else removeMessage_loop id ms = None.
Proof.
  induction ms as [|m ms IH]; [reflexivity|].
  cbn [existsb removeMessage_loop]. unfold has_id at 1.
  destruct (strict_eq (get m "id") id) eqn:E; cbn [orb].
  - exists [], m, ms. repeat split. exact E.
  - destruct (existsb (has_id id) ms).
    + destruct IH as (l1 & m' & l2 & -> & Hl1 & Hm' & ->).
      exists (m :: l1), m', l2. repeat split; [|assumption].
      cbn [forallb]. unfold has_id at 1. rewrite E. exact Hl1.
    + now rewrite IH.
Qed.

(** C8. [removeMessage(id)] returns [true] exactly when a queued Report has
    the id; it then takes out the first such Report and nothing else, and
    otherwise leaves the state as it is.  The counter is untouched, so the
    next Report gets the id it would have got without the call. *)
Theorem removeMessage_spec (id : value) (st : state) :
  let r := removeMessage id st in
  (if existsb (has_id id) (messages st)
   then fst r = Normal true
        /\ exists l1 m l2,
             messages st = (l1 ++ m :: l2)%list
             /\ forallb (fun m' => negb (has_id id m')) l1 = true
             /\ has_id id m = true
             /\ messages (snd r) = (l1 ++ l2)%list
   else fst r = Normal false /\ snd r = st)
  /\ messageId (snd r) = messageId st
  /\ header (snd r) = header st
  /\ JOA_header (snd r) = JOA_header st
  /\ forall a b c d e f g h,
       fst (addZCLReport a b c d e f g h (snd r)) = fst (addZCLReport a b c d e f g h st).
Proof.
  cbn zeta. unfold removeMessage.
  pose proof (removeMessage_loop_spec id (messages st)) as H.
  destruct (existsb (has_id id) (messages st)).
  - destruct H as (l1 & m & l2 & Hms & Hl1 & Hm & ->). cbn.
    repeat split. exists l1, m, l2. repeat split; assumption.
  - rewrite H. cbn. repeat split.
Qed.

(** *** The id counter *)

Lemma StronglySorted_app (l1 l2 : list Z) :
  StronglySorted Z.lt l1 ->
  StronglySorted Z.lt l2 ->
  (forall x y, In x l1 -> In y l2 -> x < y) ->
  StronglySorted Z.lt (l1 ++ l2)%list.
Proof.
  induction l1 as [|a l1 IH]; intros H1 H2 H12; [exact H2|].
  inversion H1 as [|? ? Hs Hf]; subst. cbn [app]. constructor.
  - apply IH; [assumption | assumption |].
    intros x y Hx Hy. apply H12; [now right | assumption].
  - apply Forall_app. split; [assumption|].
    apply Forall_forall. intros y Hy. apply H12; [now left | assumption].
Qed.

Lemma ids_within_nil (lo : Z) : ids_within lo lo [].
Proof. repeat split; [constructor | constructor | lia]. Qed.

Lemma ids_within_one (lo : Z) : ids_within lo (lo + 1) [lo + 1].
Proof.
  repeat split; try lia.
  - repeat constructor.
  - repeat constructor; lia.
Qed.

Lemma ids_within_skip (lo : Z) : ids_within lo (lo + 1) [].
Proof. repeat split; [constructor | constructor | lia]. Qed.

Lemma ids_within_app (a b c : Z) (l1 l2 : list Z) :
  ids_within a b l1 -> ids_within b c l2 -> ids_within a c (l1 ++ l2)%list.
Proof.
  intros (S1 & F1 & L1) (S2 & F2 & L2). rewrite Forall_forall in F1, F2.
  repeat split; [| |lia].
  - apply StronglySorted_app; [assumption | assumption |].
    intros x y Hx Hy. specialize (F1 x Hx). specialize (F2 y Hy). lia.
  - apply Forall_app. split; apply Forall_forall; intros x Hx.
    + specialize (F1 x Hx). lia.
    + specialize (F2 x Hx). lia.
Qed.

(** One operation hands out at most one id, the next value of the counter. *)
Lemma step_ids (o : op) (st : state) :
  exists ids,
    map (fun r => get r "id") (fst (step o st)) = map VNum ids
    /\ ids_within (messageId st) (messageId (snd (step o st))) ids.
Proof.
  destruct o; cbn [step].
  - exists [messageId st + 1]. split; [reflexivity | apply ids_within_one].
  - exists [messageId st + 1]. split; [reflexivity | apply ids_within_one].
  - unfold addZCLCommand, bindM, generateId, resolve_global.
    destruct (has global "offset").
    + exists [messageId st + 1]. split; [reflexivity | apply ids_within_one].
    + exists []. split; [reflexivity | apply ids_within_skip].
  - exists [messageId st + 1]. split; [reflexivity | apply ids_within_one].
  - exists []. split; [reflexivity|].
    unfold removeMessage. destruct (removeMessage_loop id (messages st));
      apply ids_within_nil.
  - exists []. split; [reflexivity | apply ids_within_nil].
Qed.

Lemma run_ids (ops : list op) (st : state) :
  exists ids,
    map (fun r => get r "id") (fst (run ops st)) = map VNum ids
    /\ ids_within (messageId st) (messageId (snd (run ops st))) ids.
Proof.
  revert st. induction ops as [|o ops IH]; intros st.
  - exists []. split; [reflexivity | apply ids_within_nil].
  - cbn [run].
    destruct (step_ids o st) as (ids1 & Hmap1 & Hw1).
    destruct (step o st) as [created st'] eqn:Estep. cbn [fst snd] in Hmap1, Hw1.
    destruct (IH st') as (ids2 & Hmap2 & Hw2).
    destruct (run ops st') as [created' st''] eqn:Erun. cbn [fst snd] in *.
    exists (ids1 ++ ids2)%list. split.
    + rewrite !map_app. now rewrite Hmap1, Hmap2.
    + exact (ids_within_app _ _ _ ids1 ids2 Hw1 Hw2).
Qed.

(** An operation advances the counter by one at most. *)
Lemma step_counter (o : op) (st : state) :
  messageId st <= messageId (snd (step o st)) <= messageId st + 1.
Proof.
  destruct o; cbn [step]; try (cbn; lia).
  - unfold addZCLCommand, bindM, generateId, resolve_global.
    destruct (has global "offset"); cbn; lia.
  - unfold removeMessage. destruct (removeMessage_loop id (messages st)); cbn; lia.
Qed.

Lemma run_counter (ops : list op) (st : state) :
  messageId st <= messageId (snd (run ops st))
  <= messageId st + Z.of_nat (List.length ops).
Proof.
  revert st. induction ops as [|o ops IH]; intros st; [cbn; lia|].
  cbn [run]. pose proof (step_counter o st) as H1.
  destruct (step o st) as [created st']. cbn [snd] in H1.
  specialize (IH st'). destruct (run ops st') as [created' st'']. cbn [snd] in *.
  cbn [List.length]. lia.
Qed.

(** C7. Along any sequence of adds, removals and clears during which the
    counter stays in the range where a number counts exactly (it starts at
    0 or above and the operations cannot take it beyond 2^53), the ids of
    the Reports created are the successive values of one counter: strictly
    increasing in order of creation, all above the value the counter had
    before the sequence (so above every id handed out earlier), and never
    above its final value, which is at most 2^53; [removeMessage] and
    [clearMessages] leave the counter as it is. *)
Theorem ids_strictly_increasing (ops : list op) (st : state) :
  0 <= messageId st ->
  messageId st + Z.of_nat (List.length ops) <= Facts.max_exact_counter ->
  (exists ids,
     map (fun r => get r "id") (fst (run ops st)) = map VNum ids
     /\ StronglySorted Z.lt ids
     /\ Forall (fun i => messageId st < i <= messageId (snd (run ops st))) ids
     /\ Forall (fun i => 0 < i <= Facts.max_exact_counter) ids
     /\ messageId st <= messageId (snd (run ops st))
     /\ messageId (snd (run ops st)) <= Facts.max_exact_counter)
  /\ (forall id, messageId (snd (removeMessage id st)) = messageId st)
  /\ messageId (snd (clearMessages st)) = messageId st.
Proof.
  intros Hlo Hhi. split; [|split].
  - destruct (run_ids ops st) as (ids & Hmap & Hs & Hf & Hle).
    pose proof (run_counter ops st) as Hc.
    exists ids. repeat split; try assumption; try lia.
    rewrite Forall_forall in *. intros i Hi. specialize (Hf i Hi). lia.
  - intros id. unfold removeMessage.
    destruct (removeMessage_loop id (messages st)); reflexivity.
  - reflexivity.
Qed.

Lemma ids_strictly_increasing_witness :
  exists ids,
    map (fun r => get r "id")
      (fst (run [AddTime (VNum 1474552384381); RemoveMessage (VNum 1);
                 AddZCLReport (VNum 123) VNull VNull (VStr "c") (VStr "d") (VStr "e")
                   (VNum 1000) (VStr "hello");
                 ClearMessages; AddTime (VNum 1474552384382)] init))
    = map VNum ids
    /\ StronglySorted Z.lt ids
    /\ ids = [1; 2; 3].
Proof.
  destruct (ids_strictly_increasing
              [AddTime (VNum 1474552384381); RemoveMessage (VNum 1);
               AddZCLReport (VNum 123) VNull VNull (VStr "c") (VStr "d") (VStr "e")
                 (VNum 1000) (VStr "hello");
               ClearMessages; AddTime (VNum 1474552384382)] init)
    as [(ids & Hmap & Hs & _) _].
  - cbn. lia.
  - vm_compute. discriminate.
  - exists ids. split; [exact Hmap|]. split; [exact Hs|].
    cbn in Hmap.
    destruct ids as [|a [|b [|c [|d ids]]]]; try discriminate.
    now injection Hmap as -> -> ->.
Defined.

(** ** The header line *)

Lemma attribute_is_set_defined (v : value) :
  v <> VUndefined -> attribute_is_set v = Normal (truthy v).
Proof.
  destruct v as [| |b|n|s]; intros H; try reflexivity; [congruence|].
  destruct s; reflexivity.
Qed.

(** The loop over the four keys of the schema: only [vendor] and [time]
    leave a trace in the line. *)
Lemma constructHeader_loop_schema (attrs : object) (headerStr : string) :
  constructHeader_loop attrs schema_keys headerStr =
    (c1 <- attribute_is_set (get attrs "vendor") ;;
     c2 <- attribute_is_set (get attrs "hash") ;;
     c3 <- attribute_is_set (get attrs "secret") ;;
     c4 <- attribute_is_set (get attrs "time") ;;
     Normal (headerStr
             ++ (if c1 then ",vendor=" ++ ToString (get attrs "vendor") else "")
             ++ (if c4 then ",time" else ""))).
Proof.
  unfold schema_keys. cbn [constructHeader_loop String.eqb Ascii.eqb Bool.eqb negb andb].
  destruct (attribute_is_set (get attrs "vendor")) as [[|]|]; cbn [bind]; [| |reflexivity];
    (destruct (attribute_is_set (get attrs "hash")) as [[|]|]; cbn [bind]; [| |reflexivity]);
    (destruct (attribute_is_set (get attrs "secret")) as [[|]|]; cbn [bind]; [| |reflexivity]);
    (destruct (attribute_is_set (get attrs "time")) as [[|]|]; cbn [bind]; [| |reflexivity]);
    rewrite ?append_assoc, ?append_nil_r; reflexivity.
Qed.

Lemma prefix_app (pat b : string) : prefix pat (pat ++ b) = true.
Proof.
  induction pat as [|c pat IH]; [apply prefix_nil|].
  simpl. destruct (ascii_dec c c); [exact IH | congruence].
Qed.

Lemma contains_app_pat (a pat b : string) : contains (a ++ pat ++ b) pat = true.
Proof.
  induction a as [|c a IH].
  - cbn [append]. destruct pat as [|p pat].
    + unfold contains, indexOf. destruct b; reflexivity.
    + change (String p pat ++ b) with (String p (pat ++ b)).
      rewrite contains_cons.
      change (String p (pat ++ b)) with (String p pat ++ b).
      now rewrite prefix_app.
  - change (String c a ++ pat ++ b) with (String c (a ++ pat ++ b)).
    rewrite contains_cons, IH. apply orb_true_r.
Qed.

(** Without a rendered attribute, [vendor=] can only come from the gateway
    identifier. *)
Lemma contains_vendor_bare (g : string) (time : bool) :
  contains (protocolVersion ++ g ++ (if time then ",time" else "") ++ char_eol) "vendor="
  = contains g "vendor=".
Proof.
  unfold protocolVersion. cbn [append].
  rewrite !contains_cons. cbn [prefix orb].
  repeat match goal with
         | |- context [ascii_dec ?a ?b] => destruct (ascii_dec a b); [discriminate|]
         end.
  cbn [orb].
  destruct (ascii_dec "v" "v") as [_|]; [|congruence]. 
  destruct g as [|c g].
  - destruct time; reflexivity.
  - destruct time; cbn [append];
      change (String c (g ++ ?x)) with (String c g ++ x);
      apply contains_app_stop; (reflexivity || discriminate).
Qed.

(** The header of a configuration that has its four attributes, on a client
    whose schema has its four keys. *)
Lemma constructHeader_defined (st : state) (g : string) :
  keys (attribute (header st)) = schema_keys ->
  gatewayIdentifier (JOA_header_object st) = VStr g ->
  g <> "" ->
  let attrs := attribute (JOA_header_object st) in
  get attrs "vendor" <> VUndefined ->
  get attrs "hash" <> VUndefined ->
  get attrs "secret" <> VUndefined ->
  get attrs "time" <> VUndefined ->
  let headerStr :=
    protocolVersion ++ g
    ++ (if truthy (get attrs "vendor")
        then ",vendor=" ++ ToString (get attrs "vendor") else "")
    ++ (if truthy (get attrs "time") then ",time" else "") ++ char_eol in
  constructHeader st =
    Normal (if contains headerStr "vendor=" then cb_ok headerStr
            else cb_err "no_vendor_attribute_set").
Proof.
  intros Hkeys Hgw Hg attrs Hv Hh Hs Ht headerStr.
  unfold constructHeader. rewrite Hkeys, Hgw.
  assert (Hlen : length_gt_0 (VStr g) = Normal true).
  { destruct g; [congruence | reflexivity]. }
  cbn [strict_eq negb]. rewrite Hlen. cbn [bind].
  rewrite constructHeader_loop_schema. fold attrs.
  rewrite !attribute_is_set_defined by assumption. cbn [bind ToString].
  assert (E : ((("" ++ protocolVersion) ++ g)
               ++ (if truthy (get attrs "vendor")
                   then ",vendor=" ++ ToString (get attrs "vendor") else "")
               ++ (if truthy (get attrs "time") then ",time" else "")) ++ char_eol
              = headerStr).
  { unfold headerStr. cbn [append]. now rewrite !append_assoc. }
  rewrite E. fold (contains headerStr "vendor=").
  destruct (contains headerStr "vendor="); reflexivity.
Qed.

(** C5, as the code has it.  On a client whose schema has its four keys,
    with a non-empty gateway identifier and a configuration that has its
    four attributes: a vendor that is [null] or empty gives
    [no_vendor_attribute_set] provided the gateway identifier does not
    itself contain [vendor=]; a non-empty vendor string gives the header
    line with [,vendor=<value>] right after the gateway identifier. *)
Theorem vendor_is_mandatory (st : state) (g : string) :
  keys (attribute (header st)) = schema_keys ->
  gatewayIdentifier (JOA_header_object st) = VStr g ->
  g <> "" ->
  let attrs := attribute (JOA_header_object st) in
  get attrs "hash" <> VUndefined ->
  get attrs "secret" <> VUndefined ->
  get attrs "time" <> VUndefined ->
  (get attrs "vendor" = VNull \/ get attrs "vendor" = VStr "" ->
   contains g "vendor=" = false ->
   constructHeader st = Normal (cb_err "no_vendor_attribute_set")
   /\ constructJOAPayload st = Normal (cb_err "no_vendor_attribute_set")
   /\ toString st = Normal "no_vendor_attribute_set")
  /\ (forall v, get attrs "vendor" = VStr v -> v <> "" ->
      constructHeader st =
        Normal (cb_ok (protocolVersion ++ g ++ ",vendor=" ++ v
                       ++ (if truthy (get attrs "time") then ",time" else "")
                       ++ char_eol))).
Proof.
  intros Hkeys Hgw Hg attrs Hh Hs Ht. split.
  - intros Hv Hno.
    assert (Hd : get attrs "vendor" <> VUndefined) by (destruct Hv as [-> | ->]; discriminate).
    assert (Hf : truthy (get attrs "vendor") = false) by (destruct Hv as [-> | ->]; reflexivity).
    pose proof (constructHeader_defined st g Hkeys Hgw Hg Hd Hh Hs Ht) as H.
    cbn zeta in H. fold attrs in H. rewrite Hf in H.
    change ("" ++ ?x) with x in H.
    rewrite contains_vendor_bare, Hno in H.
    unfold toString, constructJOAPayload. rewrite H. repeat split.
  - intros v Hv Hne.
    assert (Hd : get attrs "vendor" <> VUndefined) by (rewrite Hv; discriminate).
    assert (Hf : truthy (get attrs "vendor") = true).
    { rewrite Hv. destruct v; [congruence | reflexivity]. }
    pose proof (constructHeader_defined st g Hkeys Hgw Hg Hd Hh Hs Ht) as H.
    cbn zeta in H. fold attrs in H. rewrite Hf, Hv in H. cbn [ToString] in H.
    rewrite H.
    replace (protocolVersion ++ g ++ (",vendor=" ++ v)
             ++ (if truthy (get attrs "time") then ",time" else "") ++ char_eol)
      with ((protocolVersion ++ g ++ ",") ++ "vendor="
            ++ (v ++ (if truthy (get attrs "time") then ",time" else "") ++ char_eol)).
    + rewrite contains_app_pat. rewrite !append_assoc. reflexivity.
    + rewrite !append_assoc. reflexivity.
Qed.

Lemma vendor_is_mandatory_witness :
  constructHeader
    (Scenario.configured
       (Scenario.test_config (VStr "debug") true false VNull (VStr "0.0.0.0")))
  = Normal (cb_ok ("MuniRPCv2:0.0.0.0,vendor=debug,time" ++ char_eol))
  /\ toString
       (Scenario.configured
          (Scenario.test_config (VStr "") true false VNull (VStr "0.0.0.0")))
     = Normal "no_vendor_attribute_set".
Proof.
  split.
  - refine (proj2 (vendor_is_mandatory
                     (Scenario.configured
                        (Scenario.test_config (VStr "debug") true false VNull
                           (VStr "0.0.0.0")))
                     "0.0.0.0" eq_refl eq_refl _ _ _ _)
              "debug" eq_refl _); discriminate.
  - refine (proj2 (proj2 (proj1 (vendor_is_mandatory
                     (Scenario.configured
                        (Scenario.test_config (VStr "") true false VNull
                           (VStr "0.0.0.0")))
                     "0.0.0.0" eq_refl eq_refl _ _ _ _)
                            (or_intror eq_refl) eq_refl))); discriminate.
Defined.

(** C5 as stated fails: a gateway identifier that contains [vendor=] passes
    the check on the finished line although the vendor is [null]. *)
Lemma vendor_check_is_on_the_line :
  let st := Scenario.configured
              (Scenario.test_config VNull false false VNull (VStr "vendor=")) in
  gatewayIdentifier (JOA_header_object st) = VStr "vendor="
  /\ get (attribute (JOA_header_object st)) "vendor" = VNull
  /\ constructJOAPayload st = Normal (cb_ok ("MuniRPCv2:vendor=" ++ char_eol))
  /\ constructJOAPayload st <> Normal (cb_err "no_vendor_attribute_set").
Proof.
  cbn zeta. repeat split. discriminate.
Qed.

(** ** The digest *)

(** The vector of the reference test. *)
Example md5_reference_vector :
  Md5.md5 "munisense_test_12345_!@#$%" = "a29f04502785f7a55253d1f13ae6f487".
Proof. vm_compute. reflexivity. Qed.

Example md5_empty : Md5.md5 "" = "d41d8cd98f00b204e9800998ecf8427e".
Proof. vm_compute. reflexivity. Qed.

(** The digest is 32 lowercase hexadecimal characters. *)

Lemma length_app (a b : string) :
  String.length (a ++ b) = (String.length a + String.length b)%nat.
Proof. induction a as [|c a IH]; simpl; [reflexivity | now rewrite IH]. Qed.

Lemma lower_hex_app (a b : string) :
  lower_hex (a ++ b) = lower_hex a && lower_hex b.
Proof.
  induction a as [|c a IH]; simpl; [reflexivity|].
  now rewrite IH, andb_assoc.
Qed.

Lemma lower_char_hex (c : ascii) : lower_hex_char c = true -> lower_char c = c.
Proof.
  unfold lower_hex_char, lower_char. cbn zeta. intros H.
  destruct (Z.leb_spec 65 (charCode c)), (Z.leb_spec (charCode c) 90),
    (Z.leb_spec 192 (charCode c)), (Z.leb_spec (charCode c) 222);
    cbn [andb orb]; try reflexivity;
    destruct (Z.leb_spec 48 (charCode c)), (Z.leb_spec (charCode c) 57),
      (Z.leb_spec 97 (charCode c)), (Z.leb_spec (charCode c) 102);
    cbn [andb orb] in H; try discriminate; lia.
Qed.

Lemma toLowerCase_lower_hex (s : string) : lower_hex s = true -> toLowerCase s = s.
Proof.
  induction s as [|c s IH]; simpl; [reflexivity|].
  intros H. apply andb_true_iff in H as [Hc Hs].
  now rewrite lower_char_hex, IH.
Qed.

Lemma ToInt32_small (z : Z) : -2147483648 <= z < 2147483648 -> ToInt32 z = z.
Proof.
  intros H. unfold ToInt32. rewrite Z.mod_small; lia.
Qed.

Lemma band_255 (x : Z) : 0 <= band x 255 < 256.
Proof.
  unfold band. replace (ToInt32 255) with (Z.ones 8) by reflexivity.
  rewrite Z.land_ones by lia.
  pose proof (Z.mod_pos_bound (ToInt32 x) (2 ^ 8) ltac:(lia)) as H.
  change (2 ^ 8) with 256 in *.
  rewrite ToInt32_small; lia.
Qed.

(** The two characters [B] takes from ["0" + G.toString(16)], for a byte. *)
Lemma byte_hex (G : Z) :
  0 <= G < 256 ->
  let F := "0" ++ toString16 G in
  String.length (substr F (len F - 2) 2) = 2%nat
  /\ lower_hex (substr F (len F - 2) 2) = true.
Proof.
  intros HG. cbn zeta.
  assert (Hall :
    forallb (fun n =>
               let F := "0" ++ toString16 (Z.of_nat n) in
               Nat.eqb (String.length (substr F (len F - 2) 2)) 2
               && lower_hex (substr F (len F - 2) 2))
            (seq 0 256) = true) by (vm_compute; reflexivity).
  rewrite forallb_forall in Hall.
  specialize (Hall (Z.to_nat G)). cbn zeta in Hall.
  rewrite Z2Nat.id in Hall by lia.
  assert (Hin : In (Z.to_nat G) (seq 0 256)) by (apply in_seq; lia).
  apply Hall in Hin. apply andb_true_iff in Hin as [H1 H2].
  apply Nat.eqb_eq in H1. split; assumption.
Qed.

Lemma B_shape (x : Z) :
  String.length (Md5.B x) = 8%nat /\ lower_hex (Md5.B x) = true.
Proof.
  unfold Md5.B. cbn [fold_left]. unfold Md5.B_step. cbn zeta.
  destruct (byte_hex _ (band_255 (shru x (0 * 8)))) as [L0 H0].
  destruct (byte_hex _ (band_255 (shru x (1 * 8)))) as [L1 H1].
  destruct (byte_hex _ (band_255 (shru x (2 * 8)))) as [L2 H2].
  destruct (byte_hex _ (band_255 (shru x (3 * 8)))) as [L3 H3].
  cbn zeta in *.
  rewrite !length_app, !lower_hex_app, L0, L1, L2, L3, H0, H1, H2, H3.
  split; reflexivity.
Qed.

Lemma md5_shape (s : string) :
  String.length (Md5.md5 s) = 32%nat /\ lower_hex (Md5.md5 s) = true.
Proof.
  unfold Md5.md5.
  destruct (Md5.blocks _ _ _ _) as [[[Y X] W] V].
  destruct (B_shape Y) as [LY HY], (B_shape X) as [LX HX],
    (B_shape W) as [LW HW], (B_shape V) as [LV HV].
  assert (H : lower_hex (Md5.B Y ++ Md5.B X ++ Md5.B W ++ Md5.B V) = true).
  { rewrite !lower_hex_app, HY, HX, HW, HV. reflexivity. }
  rewrite toLowerCase_lower_hex by exact H.
  split; [|exact H].
  rewrite !length_app, LY, LX, LW, LV. reflexivity.
Qed.

(** The main loop of the digest has left by itself when its passes are
    used up: more passes change nothing. *)
Lemma blocks_enough (fuel extra : nat) (C : list Z) (P : Z) (st : Z * Z * Z * Z) :
  Z.of_nat (List.length C) <= P + 16 * Z.of_nat fuel ->
  Md5.blocks (fuel + extra) C P st = Md5.blocks fuel C P st.
Proof.
  revert P st. induction fuel as [|fuel IH]; intros P st H.
  - cbn [Nat.add Md5.blocks]. destruct extra as [|extra]; [reflexivity|].
    cbn [Md5.blocks].
    destruct (Z.ltb_spec P (Z.of_nat (List.length C))); [lia | reflexivity].
  - cbn [Nat.add Md5.blocks].
    destruct (Z.ltb_spec P (Z.of_nat (List.length C))); [|reflexivity].
    apply IH. lia.
Qed.

Lemma md5_loop_completes (extra : nat) (C : list Z) (st : Z * Z * Z * Z) :
  Md5.blocks (List.length C + extra) C 0 st = Md5.blocks (List.length C) C 0 st.
Proof. apply blocks_enough. lia. Qed.

(** ** The hash attribute *)

(** A header line that was accepted ends with the line feed. *)
Lemma constructHeader_ok_eol (st : state) (h : string) :
  constructHeader st = Normal (cb_ok h) -> exists hs, h = hs ++ char_eol.
Proof.
  unfold constructHeader.
  destruct (if negb (strict_eq (gatewayIdentifier (JOA_header_object st)) VNull)
            then length_gt_0 (gatewayIdentifier (JOA_header_object st))
            else Normal false) as [[|]|]; cbn [bind]; try discriminate.
  destruct (constructHeader_loop _ _ _) as [hs|]; cbn [bind]; try discriminate.
  destruct (negb _); intros [= <-]. eexists. reflexivity.
Qed.

(** [hashJOAPayload] puts the hash attribute in front of the first line
    feed of the payload, which is the first line feed of the header. *)
Lemma hashJOAPayload_splice (st : state) (hs body : string) :
  exists pre post,
    hs ++ char_eol = pre ++ char_eol ++ post
    /\ indexOf pre char_eol = -1
    /\ hashJOAPayload st ((hs ++ char_eol) ++ body)
       = pre ++ ",hash="
         ++ Md5.md5 (ToString (get (attribute (JOA_header_object st)) "secret")
                     ++ (hs ++ char_eol) ++ body)
         ++ char_eol ++ post ++ body.
Proof.
  unfold char_eol.
  destruct (split_at_first hs body (ascii_of_nat 10))
    as (pre & post & Heq & Hno & mid & -> & Hmid).
  exists pre, mid. split; [exact Hmid|]. split; [exact Hno|].
  unfold hashJOAPayload, char_eol. cbn zeta.
  assert (E : (hs ++ String (ascii_of_nat 10) "") ++ body
              = pre ++ String (ascii_of_nat 10) (mid ++ body)).
  { rewrite append_assoc. exact Heq. }
  set (digest := Md5.md5 _). rewrite E.
  rewrite (indexOf_char_first pre (mid ++ body) _ Hno).
  rewrite slice_prefix, slice_suffix. reflexivity.
Qed.

(** C6. For a configuration whose header line [h] was accepted and whose
    hash attribute is truthy: a secret that is [null] or empty gives
    [no_secret_set]; a non-empty secret gives the payload in which
    [,hash=] and the digest of secret, header line and serialized queue
    (32 lowercase hexadecimal characters) stand right before the first
    line feed of the header line. *)
Theorem hash_needs_secret (st : state) (h : string) :
  constructHeader st = Normal (cb_ok h) ->
  let attrs := attribute (JOA_header_object st) in
  let body := array_ToString (constructMessages st) in
  truthy (get attrs "hash") = true ->
  (get attrs "secret" = VNull \/ get attrs "secret" = VStr "" ->
   constructJOAPayload st = Normal (cb_err "no_secret_set")
   /\ toString st = Normal "no_secret_set")
  /\ (forall secret, get attrs "secret" = VStr secret -> secret <> "" ->
      exists pre post digest,
        h = pre ++ char_eol ++ post
        /\ indexOf pre char_eol = -1
        /\ digest = Md5.md5 (secret ++ h ++ body)
        /\ String.length digest = 32%nat
        /\ lower_hex digest = true
        /\ constructJOAPayload st
           = Normal (cb_ok (pre ++ ",hash=" ++ digest ++ char_eol ++ post ++ body))).
Proof.
  intros Hh attrs body Hhash. split.
  - intros Hs. unfold toString, constructJOAPayload. rewrite Hh. cbn [bind].
    fold attrs. rewrite Hhash. cbn [negb andb].
    destruct Hs as [-> | ->]; split; reflexivity.
  - intros secret Hs Hne.
    destruct (constructHeader_ok_eol st h Hh) as (hs & ->).
    destruct (hashJOAPayload_splice st hs body) as (pre & post & Hsplit & Hno & Hhashed).
    fold attrs in Hhashed. rewrite Hs in Hhashed. cbn [ToString] in Hhashed.
    exists pre, post, (Md5.md5 (secret ++ (hs ++ char_eol) ++ body)).
    destruct (md5_shape (secret ++ (hs ++ char_eol) ++ body)) as [Hlen Hhex].
    repeat split; try assumption.
    unfold constructJOAPayload. rewrite Hh. cbn [bind].
    fold attrs. rewrite Hhash, Hs. cbn [negb andb truthy].
    assert (Hl : length_gt_0 (VStr secret) = Normal true)
      by (destruct secret; [congruence | reflexivity]).
    assert (Ht : negb (String.eqb secret "") = true)
      by (destruct secret; [congruence | reflexivity]).
    rewrite Ht, Hl. cbn [bind]. fold body. now rewrite Hhashed.
Qed.

Lemma hash_needs_secret_witness :
  toString (Scenario.configured
              (Scenario.test_config (VStr "debug") true true (VStr "") (VStr "0.0.0.0")))
  = Normal "no_secret_set"
  /\ exists pre post digest,
       "MuniRPCv2:0.0.0.0,vendor=debug" ++ char_eol = pre ++ char_eol ++ post
       /\ indexOf pre char_eol = -1
       /\ digest = Md5.md5 ("simplesecret" ++ ("MuniRPCv2:0.0.0.0,vendor=debug" ++ char_eol) ++ "")
       /\ String.length digest = 32%nat
       /\ lower_hex digest = true
       /\ constructJOAPayload
            (Scenario.configured
               (Scenario.test_config (VStr "debug") false true (VStr "simplesecret")
                  (VStr "0.0.0.0")))
          = Normal (cb_ok (pre ++ ",hash=" ++ digest ++ char_eol ++ post ++ "")).
Proof.
  split.
  - refine (proj2 (proj1 (hash_needs_secret
                     (Scenario.configured
                        (Scenario.test_config (VStr "debug") true true (VStr "")
                           (VStr "0.0.0.0")))
                     ("MuniRPCv2:0.0.0.0,vendor=debug,time" ++ char_eol)
                     eq_refl eq_refl) (or_intror eq_refl))).
  - refine (proj2 (hash_needs_secret
                     (Scenario.configured
                        (Scenario.test_config (VStr "debug") false true
                           (VStr "simplesecret") (VStr "0.0.0.0")))
                     ("MuniRPCv2:0.0.0.0,vendor=debug" ++ char_eol)
                     eq_refl eq_refl) "simplesecret" eq_refl _).
    discriminate.
Defined.

(** The payload of the reference test for a hashed header without queue. *)
Example hashed_header_of_the_test :
  toString (Scenario.configured
              (Scenario.test_config (VStr "debug") false true (VStr "simplesecret")
                 (VStr "0.0.0.0")))
  = Normal ("MuniRPCv2:0.0.0.0,vendor=debug,hash=4928105608ed5adc908e5d4282c89c68"
            ++ char_eol).
Proof. vm_compute. reflexivity. Qed.

(** ** Which attributes reach the header line *)

(** [headers] replaces [JOA.header] and leaves the schema alone. *)
Lemma headers_keeps_schema (obj : header_object) (st : state) :
  header (snd (headers obj st)) = header st
  /\ JOA_header_object (snd (headers obj st)) = obj.
Proof. split; reflexivity. Qed.

(** The queue operations do not touch the header objects. *)
Lemma run_keeps_header (ops : list op) (st : state) :
  header (snd (run ops st)) = header st
  /\ JOA_header (snd (run ops st)) = JOA_header st.
Proof.
  revert st. induction ops as [|o ops IH]; intros st; [split; reflexivity|].
  cbn [run].
  assert (Hstep : header (snd (step o st)) = header st
                  /\ JOA_header (snd (step o st)) = JOA_header st).
  { destruct o; cbn [step]; try (split; reflexivity).
    - unfold addZCLCommand, bindM, generateId, resolve_global.
      destruct (has global "offset"); split; reflexivity.
    - unfold removeMessage. destruct (removeMessage_loop id (messages st));
        split; reflexivity. }
  destruct (step o st) as [created st']. cbn [snd] in Hstep.
  specialize (IH st'). destruct (run ops st') as [created' st''].
  cbn [snd] in *. destruct IH as [-> ->]. exact Hstep.
Qed.

(** C10, as the code has it.  On clients whose schema has its four keys,
    two configurations with the same gateway identifier and the same
    values of vendor, hash, secret and time get the same result from
    header construction, whatever else their attribute objects hold. *)
Theorem header_depends_on_schema_values (st1 st2 : state) :
  keys (attribute (header st1)) = schema_keys ->
  keys (attribute (header st2)) = schema_keys ->
  gatewayIdentifier (JOA_header_object st1) = gatewayIdentifier (JOA_header_object st2) ->
  (forall k, In k schema_keys ->
     get (attribute (JOA_header_object st1)) k
     = get (attribute (JOA_header_object st2)) k) ->
  constructHeader st1 = constructHeader st2.
Proof.
  intros H1 H2 Hgw Hget. unfold constructHeader.
  rewrite H1, H2, Hgw, !constructHeader_loop_schema.
  rewrite (Hget "vendor"), (Hget "hash"), (Hget "secret"), (Hget "time");
    try reflexivity; unfold schema_keys; cbn [In]; auto 6.
Qed.

Lemma header_depends_on_schema_values_witness :
  constructHeader
    (Scenario.configured
       {| attribute := [("room", VStr "attic"); ("vendor", VStr "debug");
                        ("time", VBool true); ("hash", VBool false); ("secret", VNull)];
          gatewayIdentifier := VStr "0.0.0.0" |})
  = constructHeader
      (Scenario.configured
         (Scenario.test_config (VStr "debug") true false VNull (VStr "0.0.0.0"))).
Proof.
  apply header_depends_on_schema_values; try reflexivity.
  intros k Hk. cbn [schema_keys In] in Hk.
  destruct Hk as [<- | [<- | [<- | [<- | []]]]]; reflexivity.
Defined.

(** C10 as stated fails on the default header object: it is the schema
    itself, so a key the caller adds to it is enumerated and rendered. *)
Lemma extra_attribute_on_default_header :
  gatewayIdentifier (JOA_header_object Scenario.in_place)
  = gatewayIdentifier (JOA_header_object Scenario.in_place_extra)
  /\ map (get (attribute (JOA_header_object Scenario.in_place))) schema_keys
     = map (get (attribute (JOA_header_object Scenario.in_place_extra))) schema_keys
  /\ constructHeader Scenario.in_place
     = Normal (cb_ok ("MuniRPCv2:10.0.0.1,vendor=acme" ++ char_eol))
  /\ constructHeader Scenario.in_place_extra
     = Normal (cb_ok ("MuniRPCv2:10.0.0.1,vendor=acme,room=attic" ++ char_eol))
  /\ constructHeader Scenario.in_place <> constructHeader Scenario.in_place_extra.
Proof.
  repeat split. discriminate.
Qed.

(** ** Serialization of the queue *)

Lemma convert_loop_app (message : object) (ks : list string) (acc : string) :
  convert_loop message ks acc = acc ++ convert_loop message ks "".
Proof.
  revert acc. induction ks as [|k ks IH]; intros acc; cbn [convert_loop].
  - now rewrite append_nil_r.
  - rewrite IH, (IH ("" ++ _)). cbn [append]. now rewrite append_assoc.
Qed.

(** With one property per key, reading the keys in order reads the values
    in order. *)
Lemma get_keys (m : object) :
  NoDup (keys m) -> map (get m) (keys m) = map snd m.
Proof.
  induction m as [|[k v] m IH]; intros Hnd; [reflexivity|].
  cbn [keys map fst snd] in *. inversion Hnd as [|? ? Hnotin Hnd']; subst.
  cbn [get]. rewrite String.eqb_refl. f_equal.
  rewrite <- IH by assumption. apply map_ext_in.
  intros k' Hk'. cbn [get].
  destruct (String.eqb_spec k k') as [->|]; [contradiction | reflexivity].
Qed.

Lemma convert_loop_join (message : object) (k : string) (ks : list string) :
  convert_loop message (k :: ks) ""
  = join char_tab (map (fun k => ToString (get message k)) (k :: ks)) ++ char_tab.
Proof.
  revert k. induction ks as [|k' ks IH]; intros k.
  - reflexivity.
  - change (convert_loop message (k :: k' :: ks) "")
      with (convert_loop message (k' :: ks)
              ("" ++ (ToString (get message k) ++ char_tab))).
    rewrite convert_loop_app, IH.
    change (join char_tab (map (fun k => ToString (get message k)) (k :: k' :: ks)))
      with (ToString (get message k) ++ char_tab
            ++ join char_tab (map (fun k => ToString (get message k)) (k' :: ks))).
    cbn [append]. now rewrite !append_assoc.
Qed.

(** A Report is converted to its field values, in the order of its fields,
    joined by tabs and closed by a line feed. *)
Lemma convertMessage_render_spec (message : object) :
  NoDup (keys message) -> convertMessage message = render_spec message.
Proof.
  intros Hnd. unfold convertMessage, render_spec. cbn zeta.
  destruct message as [|[k v] message]; [reflexivity|].
  change (keys ((k, v) :: message)) with (k :: keys message) in *.
  rewrite convert_loop_join. unfold char_tab at 2. rewrite slice_drop_last.
  f_equal. f_equal.
  change (k :: keys message) with (keys ((k, v) :: message)).
  rewrite <- (map_map (get ((k, v) :: message)) ToString).
  rewrite get_keys by assumption. now rewrite map_map.
Qed.

(** Without hash, the payload is the header line followed by the array of
    converted messages as [+] converts it: joined by commas. *)
Lemma payload_without_hash (st : state) (h : string) :
  constructHeader st = Normal (cb_ok h) ->
  truthy (get (attribute (JOA_header_object st)) "hash") = false ->
  constructJOAPayload st
  = Normal (cb_ok (h ++ join "," (map convertMessage (messages st)))).
Proof.
  intros Hh Hhash. unfold constructJOAPayload. rewrite Hh. cbn [bind].
  now rewrite Hhash.
Qed.

Lemma join_length (sep x : string) (l : list string) :
  String.length (join sep (x :: l))
  = (String.length (String.concat "" (x :: l)) + List.length l * String.length sep)%nat.
Proof.
  revert x. induction l as [|y l IH]; intros x.
  - cbn. lia.
  - change (join sep (x :: y :: l)) with (x ++ sep ++ join sep (y :: l)).
    change (String.concat "" (x :: y :: l)) with (x ++ "" ++ String.concat "" (y :: l)).
    rewrite !length_app, IH. cbn [List.length String.length]. lia.
Qed.

(** With two or more queued messages the commas make the payload differ
    from the header line followed by the concatenated messages. *)
Lemma payload_has_commas (st : state) (h : string) :
  constructHeader st = Normal (cb_ok h) ->
  truthy (get (attribute (JOA_header_object st)) "hash") = false ->
  (2 <= List.length (messages st))%nat ->
  constructJOAPayload st
  <> Normal (cb_ok (h ++ String.concat "" (map convertMessage (messages st)))).
Proof.
  intros Hh Hhash Hlen. rewrite (payload_without_hash st h Hh Hhash).
  intros [= E]. apply (f_equal String.length) in E.
  rewrite !length_app in E.
  destruct (messages st) as [|m ms]; [cbn in Hlen; lia|].
  cbn [map] in E. rewrite join_length in E.
  rewrite length_map in E. cbn [List.length String.length] in *. lia.
Qed.

(** C2, evaluated on a queue of two reports: each report is converted as
    the specification says, but a comma stands between the two lines of
    the payload, which therefore is not the header line followed by the
    concatenation of the rendered reports. *)
Theorem two_reports_are_joined_by_a_comma :
  map convertMessage (messages Scenario.two_reports)
  = [Scenario.first_line; Scenario.second_line]
  /\ map render_spec (messages Scenario.two_reports)
     = [Scenario.first_line; Scenario.second_line]
  /\ constructJOAPayload Scenario.two_reports
     = Normal (cb_ok (("MuniRPCv2:0.0.0.0,vendor=debug" ++ char_eol)
                      ++ Scenario.first_line ++ "," ++ Scenario.second_line))
  /\ constructJOAPayload Scenario.two_reports
     <> Normal (cb_ok (("MuniRPCv2:0.0.0.0,vendor=debug" ++ char_eol)
                       ++ serialize_spec (messages Scenario.two_reports))).
Proof.
  repeat split; try (vm_compute; reflexivity).
  vm_compute. discriminate.
Qed.

(** * Further properties *)

Import Facts Transport.

(** ** The arithmetic of the digest *)

Lemma land_neg_pow2 (c n : Z) : 0 <= n -> Z.land c (- 2 ^ n) = c / 2 ^ n * 2 ^ n.
Proof.
  intros Hn. replace (- 2 ^ n) with (Z.lnot (Z.ones n)).
  - rewrite <- Z.ldiff_land, Z.ldiff_ones_r by assumption.
    now rewrite Z.shiftr_div_pow2, Z.shiftl_mul_pow2.
  - rewrite Z.ones_equiv. unfold Z.lnot. lia.
Qed.

Lemma land_bit30 (c : Z) : Z.land c 1073741824 = c mod 2147483648 / 1073741824 * 1073741824.
Proof.
  change 1073741824 with (Z.land (Z.ones 31) (- 2 ^ 30)) at 1.
  rewrite Z.land_assoc, Z.land_ones, land_neg_pow2 by lia. reflexivity.
Qed.

Lemma ToInt32_range (z : Z) : -2147483648 <= ToInt32 z < 2147483648.
Proof. unfold ToInt32. pose proof (Z.mod_pos_bound (z + 2147483648) 4294967296). lia. Qed.

Lemma ToInt32_eqm (a b : Z) : (a - b) mod 4294967296 = 0 -> ToInt32 a = ToInt32 b.
Proof.
  intros H. unfold ToInt32. f_equal.
  apply Z.mod_divide in H; [|lia]. destruct H as [q Hq].
  replace (a + 2147483648) with (b + 2147483648 + q * 4294967296) by lia.
  apply Z.mod_add. lia.
Qed.

Lemma ToInt32_mod (a : Z) : (ToInt32 a - a) mod 4294967296 = 0.
Proof.
  unfold ToInt32.
  pose proof (Z.div_mod (a + 2147483648) 4294967296 ltac:(lia)) as H.
  replace ((a + 2147483648) mod 4294967296 - 2147483648 - a)
    with ((- ((a + 2147483648) / 4294967296)) * 4294967296) by lia.
  apply Z.mod_mul. lia.
Qed.

Lemma bxor_arith (a b : Z) :
  bxor a b = ToInt32 (ToInt32 a + ToInt32 b - 2 * Z.land (ToInt32 a) (ToInt32 b)).
Proof.
  unfold bxor. f_equal. pose proof (Z.add_lxor_2land (ToInt32 a) (ToInt32 b)). lia.
Qed.

(** The three masks of [K]: the low 30 bits, bit 30 and the sign bit. *)
Lemma band_lo30 (G : Z) : band G 1073741823 = ToInt32 G mod 1073741824.
Proof.
  unfold band. change (ToInt32 1073741823) with (Z.ones 30).
  rewrite Z.land_ones by lia. change (2 ^ 30) with 1073741824.
  apply ToInt32_small.
  pose proof (Z.mod_pos_bound (ToInt32 G) 1073741824). lia.
Qed.

Lemma band_b30 (G : Z) :
  band G 1073741824 = ToInt32 G mod 2147483648 / 1073741824 * 1073741824.
Proof.
  unfold band. change (ToInt32 1073741824) with 1073741824.
  rewrite land_bit30. apply ToInt32_small.
  pose proof (Z.mod_pos_bound (ToInt32 G) 2147483648).
  Z.div_mod_to_equations. lia.
Qed.

Lemma band_sign (G : Z) :
  band G 2147483648 = ToInt32 G / 2147483648 * 2147483648.
Proof.
  unfold band. change (ToInt32 2147483648) with (- 2 ^ 31).
  rewrite land_neg_pow2 by lia. change (2 ^ 31) with 2147483648.
  apply ToInt32_small.
  pose proof (ToInt32_range G). Z.div_mod_to_equations. lia.
Qed.


Lemma bxor_signbit (c m : Z) :
  ToInt32 m = 0 \/ ToInt32 m = -2147483648 -> bxor c m = ToInt32 (c + m).
Proof.
  intros Hm. rewrite bxor_arith.
  pose proof (ToInt32_mod c) as Ec. pose proof (ToInt32_mod m) as Em.
  pose proof (ToInt32_range c) as Rc.
  apply ToInt32_eqm. apply Z.mod_divide; [lia|].
  apply Z.mod_divide in Ec, Em; try lia. destruct Ec as [q1 Ec], Em as [q2 Em].
  destruct Hm as [Hm | Hm]; rewrite Hm in *.
  - rewrite Z.land_0_r. exists (q1 + q2). lia.
  - change (-2147483648) with (- 2 ^ 31) at 2. rewrite land_neg_pow2 by lia.
    change (2 ^ 31) with 2147483648.
    exists (q1 + q2 - ToInt32 c / 2147483648). lia.
Qed.

(** Adding bit 30 to a number below 2^31, with the carry into bit 31. *)
Lemma bxor_bit30 (x : Z) :
  0 <= x < 2147483648 ->
  (if negb (x mod 2147483648 / 1073741824 * 1073741824 =? 0)
   then bxor x 3221225472 else bxor x 1073741824)
  = ToInt32 (x + 1073741824).
Proof.
  intros Hx. rewrite !bxor_arith, (ToInt32_small x) by lia.
  change (ToInt32 3221225472) with (- 2 ^ 30).
  change (ToInt32 1073741824) with 1073741824.
  rewrite land_neg_pow2, land_bit30 by lia. change (2 ^ 30) with 1073741824.
  destruct (Z.eqb_spec (x mod 2147483648 / 1073741824 * 1073741824) 0) as [E|E];
    cbn [negb]; apply ToInt32_eqm; apply Z.mod_divide; try lia.
  - exists 0. rewrite E. lia.
  - exists (-1). Z.div_mod_to_equations. lia.
Qed.

Lemma K_add (G k : Z) : Md5.K G k = ToInt32 (G + k).
Proof.
  unfold Md5.K. cbn zeta.
  rewrite !band_lo30, !band_b30, !band_sign.
  pose proof (ToInt32_range G) as HG. pose proof (ToInt32_range k) as Hk.
  pose proof (ToInt32_mod G) as EG. pose proof (ToInt32_mod k) as Ek.
  set (g := ToInt32 G) in *. set (kk := ToInt32 k) in *.
  set (x := g mod 1073741824 + kk mod 1073741824).
  set (F := g / 2147483648 * 2147483648).
  set (H := kk / 2147483648 * 2147483648).
  set (I := g mod 2147483648 / 1073741824 * 1073741824).
  set (d := kk mod 2147483648 / 1073741824 * 1073741824).
  assert (HF : F = 0 \/ F = -2147483648) by (unfold F; Z.div_mod_to_equations; lia).
  assert (HH : H = 0 \/ H = -2147483648) by (unfold H; Z.div_mod_to_equations; lia).
  assert (HI : I = 0 \/ I = 1073741824) by (unfold I; Z.div_mod_to_equations; lia).
  assert (Hd : d = 0 \/ d = 1073741824) by (unfold d; Z.div_mod_to_equations; lia).
  assert (Hx : 0 <= x < 2147483648) by (unfold x; Z.div_mod_to_equations; lia).
  assert (Eg : g = g mod 1073741824 + I + F) by (unfold I, F; Z.div_mod_to_equations; lia).
  assert (Ekk : kk = kk mod 1073741824 + d + H) by (unfold d, H; Z.div_mod_to_equations; lia).
  assert (Hsum : forall e, (e - (x + I + d + F + H)) mod 4294967296 = 0 ->
                  ToInt32 e = ToInt32 (G + k)).
  { intros e He. apply ToInt32_eqm.
    apply Z.mod_divide in He, EG, Ek; try lia. apply Z.mod_divide; [lia|].
    destruct He as [q1 He], EG as [q2 EG], Ek as [q3 Ek].
    exists (q1 + q2 + q3). unfold x in He. lia. }
  clearbody x F H I d. clear Eg Ekk EG Ek.
  rewrite (ToInt32_small x) by lia.
  assert (HFs : ToInt32 F = 0 \/ ToInt32 F = -2147483648)
    by (destruct HF as [-> | ->]; [left | right]; reflexivity).
  assert (HHs : ToInt32 H = 0 \/ ToInt32 H = -2147483648)
    by (destruct HH as [-> | ->]; [left | right]; reflexivity).
  pose proof (bxor_bit30 x Hx) as Hb.
  rewrite !(bxor_signbit _ H), !(bxor_signbit _ F) by assumption.
  rewrite (bxor_signbit x 2147483648) by (right; reflexivity).
  assert (Hstep : forall a b, (ToInt32 a + b - (a + b)) mod 4294967296 = 0).
  { intros a b. replace (ToInt32 a + b - (a + b)) with (ToInt32 a - a) by lia.
    apply ToInt32_mod. }
  assert (Hchain : forall c, (ToInt32 (ToInt32 (x + c) + F) + H - (x + c + F + H))
                              mod 4294967296 = 0).
  { intros c. pose proof (ToInt32_mod (x + c)) as E1.
    pose proof (ToInt32_mod (ToInt32 (x + c) + F)) as E2.
    apply Z.mod_divide in E1, E2; try lia. apply Z.mod_divide; [lia|].
    destruct E1 as [q1 E1], E2 as [q2 E2]. exists (q1 + q2). lia. }
  destruct HI as [-> | ->], Hd as [-> | ->];
    match goal with
    | |- context [band ?a ?b] =>
        let v := eval vm_compute in (band a b) in change (band a b) with v
    end;
    try match goal with
    | |- context [bor ?a ?b] =>
        let v := eval vm_compute in (bor a b) in change (bor a b) with v
    end; cbn [Z.eqb negb Pos.eqb];
    try (destruct (negb (x mod 2147483648 / 1073741824 * 1073741824 =? 0));
         rewrite Hb);
    apply Hsum.
  all: try match goal with
           | |- (ToInt32 (ToInt32 (?x + ?c) + ?F) + ?H - ?t) mod _ = 0 =>
               replace t with (x + c + F + H) by lia; apply Hchain
           end.
  replace (ToInt32 (x + F) + H - (x + 0 + 0 + F + H))
    with (ToInt32 (x + F) - (x + F)) by lia.
  apply ToInt32_mod.
Qed.


(** X1. [K] is the addition modulo 2^32, whatever integers it is given:
    its result is the sum read as a signed 32-bit integer, and read as an
    unsigned one it is the sum modulo 2^32. *)
Theorem K_is_addition_mod_2_32 (G k : Z) :
  Md5.K G k = ToInt32 (G + k)
  /\ -2147483648 <= Md5.K G k < 2147483648
  /\ ToUint32 (Md5.K G k) = (G + k) mod 4294967296.
Proof.
  rewrite K_add. split; [reflexivity|]. split; [apply ToInt32_range|].
  unfold ToUint32. pose proof (ToInt32_mod (G + k)) as E.
  apply Z.mod_divide in E; [|lia]. destruct E as [q E].
  replace (ToInt32 (G + k)) with (G + k + q * 4294967296) by lia.
  apply Z.mod_add. lia.
Qed.

Lemma land_multiple_small (m b d : Z) :
  0 <= d -> 0 <= b < 2 ^ d -> Z.land (m * 2 ^ d) b = 0.
Proof.
  intros Hd Hb.
  rewrite <- (Z.mod_small b (2 ^ d)) by assumption.
  rewrite <- Z.land_ones by assumption.
  rewrite (Z.land_comm b), Z.land_assoc, (Z.land_ones (m * 2 ^ d)) by assumption.
  rewrite Z.mod_mul by lia. apply Z.land_0_l.
Qed.

Lemma ToInt32_multiple (a d : Z) :
  0 <= d < 32 -> exists m, ToInt32 (a * 2 ^ d) = m * 2 ^ d.
Proof.
  intros Hd. pose proof (ToInt32_mod (a * 2 ^ d)) as E.
  apply Z.mod_divide in E; [|lia]. destruct E as [q E].
  exists (a + q * 2 ^ (32 - d)).
  assert (P : 2 ^ (32 - d) * 2 ^ d = 4294967296).
  { rewrite <- Z.pow_add_r by lia. replace (32 - d + d) with 32 by lia. reflexivity. }
  rewrite Z.mul_add_distr_r, <- Z.mul_assoc, P. lia.
Qed.

Lemma L_rot (k d : Z) :
  0 < d < 32 -> Md5.L k d = ToInt32 (rotl32 k d).
Proof.
  intros Hd. unfold Md5.L, rotl32, bor, shl, shru.
  assert (Ed : ToUint32 d mod 32 = d) by (unfold ToUint32; Z.div_mod_to_equations; lia).
  assert (Ed' : ToUint32 (32 - d) mod 32 = 32 - d)
    by (unfold ToUint32; Z.div_mod_to_equations; lia).
  rewrite Ed, Ed', Z.shiftl_mul_pow2, Z.shiftr_div_pow2 by lia.
  set (u := ToUint32 k).
  assert (Hu : 0 <= u < 4294967296) by (apply Z.mod_pos_bound; lia).
  assert (Hpow : 2 ^ (32 - d) * 2 ^ d = 4294967296).
  { rewrite <- Z.pow_add_r by lia. replace (32 - d + d) with 32 by lia. reflexivity. }
  assert (Hp1 : 0 < 2 ^ d) by (apply Z.pow_pos_nonneg; lia).
  assert (Hp2 : 0 < 2 ^ (32 - d)) by (apply Z.pow_pos_nonneg; lia).
  assert (HB : 0 <= u / 2 ^ (32 - d) < 2 ^ d).
  { split; [apply Z.div_pos; lia|]. apply Z.div_lt_upper_bound; lia. }
  assert (Hd31 : 2 ^ d <= 2147483648).
  { change 2147483648 with (2 ^ 31). apply Z.pow_le_mono_r; lia. }
  rewrite (ToInt32_small (u / 2 ^ (32 - d))) by lia.
  rewrite (ToInt32_small (ToInt32 _)) by apply ToInt32_range.
  destruct (ToInt32_multiple (ToInt32 k) d ltac:(lia)) as [m Hm].
  pose proof (Z.add_lor_land (ToInt32 (ToInt32 k * 2 ^ d)) (u / 2 ^ (32 - d))) as Hlor.
  rewrite Hm in Hlor at 2. rewrite land_multiple_small in Hlor by lia.
  replace (Z.lor (ToInt32 (ToInt32 k * 2 ^ d)) (u / 2 ^ (32 - d)))
    with (ToInt32 (ToInt32 k * 2 ^ d) + u / 2 ^ (32 - d)) by lia.
  apply ToInt32_eqm.
  pose proof (ToInt32_mod (ToInt32 k * 2 ^ d)) as E1.
  pose proof (ToInt32_mod k) as E2.
  assert (E3 : u = k - k / 4294967296 * 4294967296).
  { unfold u, ToUint32. pose proof (Z.div_mod k 4294967296). lia. }
  apply Z.mod_divide in E1, E2; try lia. apply Z.mod_divide; [lia|].
  destruct E1 as [q1 E1], E2 as [q2 E2].
  exists (q1 + (q2 + k / 4294967296) * 2 ^ d).
  set (P := 2 ^ d) in *. set (B := u / 2 ^ (32 - d)) in *.
  set (A := ToInt32 (ToInt32 k * P)) in *. set (g := ToInt32 k) in *.
  set (c := k / 4294967296) in *.
  replace (A + B - (u * P + B)) with ((A - g * P) + (g - u) * P) by ring.
  rewrite E1. replace (g - u) with ((q2 + c) * 4294967296) by lia. ring.
Qed.

Lemma ToUint32_eqm (a b : Z) : (a - b) mod 4294967296 = 0 -> ToUint32 a = ToUint32 b.
Proof.
  intros H. unfold ToUint32.
  apply Z.mod_divide in H; [|lia]. destruct H as [q Hq].
  replace a with (b + q * 4294967296) by lia. apply Z.mod_add. lia.
Qed.

Lemma step_sum (G v k I : Z) :
  ToUint32 (Md5.K G (Md5.K (Md5.K v k) I)) = ToUint32 (G + v + k + I).
Proof.
  rewrite !K_add. apply ToUint32_eqm.
  pose proof (ToInt32_mod (v + k)) as E1.
  pose proof (ToInt32_mod (ToInt32 (v + k) + I)) as E2.
  pose proof (ToInt32_mod (G + ToInt32 (ToInt32 (v + k) + I))) as E3.
  apply Z.mod_divide in E1, E2, E3; try lia. apply Z.mod_divide; [lia|].
  destruct E1 as [q1 E1], E2 as [q2 E2], E3 as [q3 E3].
  exists (q1 + q2 + q3). lia.
Qed.

Lemma step_rot (G v k I H F : Z) :
  0 < H < 32 ->
  Md5.K (Md5.L (Md5.K G (Md5.K (Md5.K v k) I)) H) F
  = ToInt32 (rotl32 (G + v + k + I) H + F).
Proof.
  intros HH. rewrite (K_add (Md5.L _ _)), L_rot by assumption.
  unfold rotl32. rewrite step_sum.
  apply ToInt32_eqm.
  match goal with
  | |- (ToInt32 ?a + F - (?a + F)) mod _ = 0 =>
      replace (ToInt32 a + F - (a + F)) with (ToInt32 a - a) by lia
  end.
  apply ToInt32_mod.
Qed.

(** X3. Each of the four step functions adds the word, the constant and
    the value of its bit function to its first argument, rotates the sum
    to the left by [H] bits and adds its second argument, all modulo 2^32. *)
Theorem round_steps (G F aa Z' k H I : Z) :
  0 < H < 32 ->
  Md5.u G F aa Z' k H I = ToInt32 (rotl32 (G + Md5.r F aa Z' + k + I) H + F)
  /\ Md5.f G F aa Z' k H I = ToInt32 (rotl32 (G + Md5.q F aa Z' + k + I) H + F)
  /\ Md5.D G F aa Z' k H I = ToInt32 (rotl32 (G + Md5.p F aa Z' + k + I) H + F)
  /\ Md5.t G F aa Z' k H I = ToInt32 (rotl32 (G + Md5.n F aa Z' + k + I) H + F).
Proof.
  intros HH. unfold Md5.u, Md5.f, Md5.D, Md5.t. cbn zeta.
  repeat split; apply step_rot; assumption.
Qed.

Lemma round_steps_witness :
  Md5.u 1732584193 4023233417 2562383102 271733878 0 7 3614090360
  = ToInt32 (rotl32 (1732584193 + Md5.r 4023233417 2562383102 271733878 + 0
                     + 3614090360) 7 + 4023233417).
Proof.
  apply (round_steps 1732584193 4023233417 2562383102 271733878 0 7 3614090360). lia.
Defined.

(** X2. For a shift of 1 to 31 bits, [L] is the rotation of the 32-bit word
    to the left: the bits shifted out at the top come back at the bottom,
    and the result depends on the low 32 bits of its argument only. *)
Theorem L_is_rotation (k d : Z) :
  0 < d < 32 ->
  Md5.L k d = ToInt32 (rotl32 k d)
  /\ ToUint32 (Md5.L k d)
     = (ToUint32 k * 2 ^ d) mod 4294967296 + ToUint32 k / 2 ^ (32 - d)
  /\ Md5.L (k + 4294967296) d = Md5.L k d.
Proof.
  intros Hd. rewrite !L_rot by assumption. split; [reflexivity|].
  assert (Hu : 0 <= ToUint32 k < 4294967296) by (apply Z.mod_pos_bound; lia).
  assert (Hpow : 2 ^ (32 - d) * 2 ^ d = 4294967296).
  { rewrite <- Z.pow_add_r by lia. replace (32 - d + d) with 32 by lia. reflexivity. }
  assert (Hp1 : 0 < 2 ^ d) by (apply Z.pow_pos_nonneg; lia).
  assert (Hp2 : 0 < 2 ^ (32 - d)) by (apply Z.pow_pos_nonneg; lia).
  split.
  - unfold rotl32.
    pose proof (ToInt32_mod (ToUint32 k * 2 ^ d + ToUint32 k / 2 ^ (32 - d))) as E.
    apply Z.mod_divide in E; [|lia]. destruct E as [q E].
    unfold ToUint32 at 1.
    replace (ToInt32 (ToUint32 k * 2 ^ d + ToUint32 k / 2 ^ (32 - d)))
      with (ToUint32 k * 2 ^ d + ToUint32 k / 2 ^ (32 - d) + q * 4294967296) by lia.
    rewrite Z.mod_add by lia.
    assert (HB : 0 <= ToUint32 k / 2 ^ (32 - d) < 2 ^ d).
    { split; [apply Z.div_pos; lia|]. apply Z.div_lt_upper_bound; lia. }
    set (u := ToUint32 k) in *. set (B := u / 2 ^ (32 - d)) in *.
    rewrite <- Hpow.
    rewrite (Z.mul_mod_distr_r u) by lia.
    pose proof (Z.mod_pos_bound u (2 ^ (32 - d)) Hp2) as Hm.
    pose proof (Z.div_mod u (2 ^ (32 - d)) ltac:(lia)) as Hdm.
    symmetry. apply (Z.mod_unique _ _ (u / 2 ^ (32 - d))).
    + left. nia.
    + rewrite Hdm at 1. ring.
  - unfold rotl32, ToUint32.
    replace (k + 4294967296) with (k + 1 * 4294967296) by lia.
    now rewrite Z.mod_add by lia.
Qed.

Lemma L_is_rotation_witness :
  Md5.L 2147483649 1 = ToInt32 (rotl32 2147483649 1)
  /\ ToUint32 (Md5.L 2147483649 1)
     = (ToUint32 2147483649 * 2 ^ 1) mod 4294967296 + ToUint32 2147483649 / 2 ^ (32 - 1)
  /\ Md5.L (2147483649 + 4294967296) 1 = Md5.L 2147483649 1.
Proof. apply L_is_rotation. lia. Defined.

(** ** Padding and encoding *)

Lemma array_set_nat_length (aa : list Z) (i : nat) (v : Z) :
  List.length (array_set_nat aa i v) = Nat.max (List.length aa) (S i).
Proof.
  revert aa. induction i as [|i IH]; intros [|h t]; cbn [array_set_nat List.length];
    rewrite ?IH; cbn [List.length]; lia.
Qed.

Lemma array_set_nat_nth (aa : list Z) (i j : nat) (v : Z) :
  nth j (array_set_nat aa i v) 0 = if Nat.eqb j i then v else nth j aa 0.
Proof.
  revert aa j. induction i as [|i IH]; intros [|h t] [|j]; cbn [array_set_nat nth Nat.eqb];
    try reflexivity; rewrite ?IH; try reflexivity.
  - destruct j; reflexivity.
  - destruct (Nat.eqb j i); [reflexivity | destruct j; reflexivity].
Qed.

Lemma array_set_length_in (aa : list Z) (i v : Z) :
  0 <= i < Z.of_nat (List.length aa) ->
  List.length (array_set aa i v) = List.length aa.
Proof.
  intros H. unfold array_set. rewrite array_set_nat_length. lia.
Qed.

Lemma e_loop_spec (G : string) (H : Z) (aa : list Z) :
  0 <= H ->
  H + len G <= 4 * Z.of_nat (List.length aa) ->
  fst (Md5.e_loop G H aa) = H + len G
  /\ List.length (snd (Md5.e_loop G H aa)) = List.length aa.
Proof.
  revert H aa. induction G as [|c G IH]; intros H aa H0 Hlen.
  - cbn. split; [unfold len; cbn; lia | reflexivity].
  - cbn [Md5.e_loop].
    assert (El : len (String c G) = 1 + len G) by (unfold len; cbn [String.length]; lia).
    rewrite El in *. pose proof (len_nonneg G).
    destruct (IH (H + 1)
                (array_set aa ((H - H mod 4) / 4)
                   (bor (array_get aa ((H - H mod 4) / 4))
                      (shl (charCode c) (H mod 4 * 8))))) as [E1 E2].
    + lia.
    + rewrite array_set_length_in; [lia|]. Z.div_mod_to_equations. lia.
    + rewrite E1, E2. split; [lia|].
      apply array_set_length_in. Z.div_mod_to_equations. lia.
Qed.

(** X4. [e] turns a string of [n] characters into exactly
    16 * (floor((n + 8) / 64) + 1) words: the least number of 64-byte
    blocks that hold the characters, the byte 0x80 and the 8 bytes of the
    length.  The last two words are [n << 3] and [n >>> 29]. *)
Theorem e_pads_to_blocks (G : string) :
  let I := padded_words (len G) in
  Z.of_nat (List.length (Md5.e G)) = I
  /\ I mod 16 = 0
  /\ 64 * (I / 16) - 64 < len G + 9 <= 64 * (I / 16)
  /\ array_get (Md5.e G) (I - 2) = shl (len G) 3
  /\ array_get (Md5.e G) (I - 1) = shru (len G) 29.
Proof.
  cbn zeta. unfold Md5.e, padded_words. cbn zeta.
  pose proof (len_nonneg G) as HF.
  set (F := len G) in *.
  replace ((F + 8 - (F + 8) mod 64) / 64) with ((F + 8) / 64)
    by (Z.div_mod_to_equations; lia).
  set (I := ((F + 8) / 64 + 1) * 16).
  assert (HI : F + 1 <= 4 * (I - 2) /\ 16 <= I) by (unfold I; Z.div_mod_to_equations; lia).
  pose proof (e_loop_spec G 0 (repeat 0 (Z.to_nat (I - 1))) ltac:(lia)) as Hloop.
  rewrite repeat_length in Hloop. fold F in Hloop.
  destruct Hloop as [E1 E2]; [lia|].
  destruct (Md5.e_loop G 0 (repeat 0 (Z.to_nat (I - 1)))) as [H aa].
  cbn [fst snd] in E1, E2. subst H.
  set (aa1 := array_set aa _ _).
  assert (L1 : List.length aa1 = Z.to_nat (I - 1)).
  { unfold aa1. rewrite array_set_length_in; [exact E2|]. Z.div_mod_to_equations. lia. }
  assert (L2 : List.length (array_set aa1 (I - 2) (shl F 3)) = Z.to_nat (I - 1)).
  { rewrite array_set_length_in; [exact L1|]. lia. }
  split; [|split; [|split; [|split]]].
  - unfold array_set at 1. rewrite array_set_nat_length, L2. lia.
  - unfold I. apply Z.mod_mul. lia.
  - unfold I. Z.div_mod_to_equations. lia.
  - unfold array_get, array_set. rewrite !array_set_nat_nth.
    replace (Nat.eqb (Z.to_nat (I - 2)) (Z.to_nat (I - 1))) with false
      by (symmetry; apply Nat.eqb_neq; lia).
    now rewrite Nat.eqb_refl.
  - unfold array_get, array_set. rewrite array_set_nat_nth.
    now rewrite Nat.eqb_refl.
Qed.

Lemma replace_rn_cons (c : ascii) (k : string) :
  Md5.replace_rn (String c k) =
    match k with
    | String d k' =>
        if Ascii.eqb c "r" && Ascii.eqb d "n" then String "n" (Md5.replace_rn k')
        else String c (Md5.replace_rn k)
    | "" => String c ""
    end.
Proof.
  destruct k as [|d k'].
  - destruct c as [[] [] [] [] [] [] [] []]; reflexivity.
  - destruct c as [[] [] [] [] [] [] [] []]; try reflexivity.
    destruct d as [[] [] [] [] [] [] [] []]; reflexivity.
Qed.

Lemma fromCharCode_charCode (c : ascii) : fromCharCode (charCode c) = c.
Proof.
  unfold fromCharCode, charCode. rewrite N2Z.id. apply ascii_N_embedding.
Qed.

Lemma J_loop_ascii (s : string) : ascii_only s = true -> Md5.J_loop s = s.
Proof.
  induction s as [|c s IH]; [reflexivity|].
  cbn [ascii_only Md5.J_loop]. intros H. apply andb_true_iff in H as [Hc Hs].
  rewrite Hc, fromCharCode_charCode, IH by assumption. reflexivity.
Qed.

Lemma replace_rn_none (s : string) : contains s "rn" = false -> Md5.replace_rn s = s.
Proof.
  induction s as [|c s IH]; [reflexivity|].
  rewrite contains_cons. intros H. apply orb_false_iff in H as [Hp Hs].
  rewrite replace_rn_cons. destruct s as [|d s']; [reflexivity|].
  rewrite IH by assumption.
  destruct (Ascii.eqb_spec c "r") as [->|]; [|reflexivity].
  destruct (Ascii.eqb_spec d "n") as [->|]; [|reflexivity].
  cbn in Hp. destruct s'; discriminate.
Qed.

(** X5. On a string of code units below 128 that does not contain the two
    letters [rn], [J] changes nothing: the digest is taken over the
    characters as they are. *)
Theorem J_identity (s : string) :
  ascii_only s = true -> contains s "rn" = false -> Md5.J s = s.
Proof.
  intros Ha Hc. unfold Md5.J. rewrite replace_rn_none by assumption.
  now apply J_loop_ascii.
Qed.

Lemma ends_with_cons (c x y : ascii) (s : string) :
  ends_with c (String x (String y s)) = ends_with c (String y s).
Proof. reflexivity. Qed.

Lemma replace_rn_app (a b : string) :
  ends_with "r" a = false ->
  Md5.replace_rn (a ++ String "r" (String "n" b))
  = Md5.replace_rn (a ++ String "n" b).
Proof.
  revert b.
  assert (Hboth : forall n a, (String.length a <= n)%nat -> forall b,
            ends_with "r" a = false ->
            Md5.replace_rn (a ++ String "r" (String "n" b))
            = Md5.replace_rn (a ++ String "n" b)).
  { induction n as [|n IH]; intros a0 Hn b Hend.
    - destruct a0; [|cbn in Hn; lia]. cbn [append].
      rewrite !replace_rn_cons. cbn. destruct b; reflexivity.
    - destruct a0 as [|c [|d a']].
      + cbn [append]. rewrite !replace_rn_cons. cbn. destruct b; reflexivity.
      + cbn [append]. cbn in Hend.
        rewrite (replace_rn_cons c), (replace_rn_cons c).
        destruct (Ascii.eqb_spec c "r") as [->|Hc]; [discriminate|].
        cbn [andb]. reflexivity.
      + rewrite ends_with_cons in Hend. cbn [append].
        rewrite (replace_rn_cons c), (replace_rn_cons c).
        cbn [String.length] in Hn.
        destruct (Ascii.eqb c "r" && Ascii.eqb d "n").
        * f_equal. apply IH; [lia|].
          destruct a' as [|x a'']; [reflexivity|].
          rewrite ends_with_cons in Hend. exact Hend.
        * f_equal. apply (IH (String d a')); [cbn [String.length]; lia | exact Hend]. }
  intros b H. apply (Hboth (String.length a)); [lia | exact H].
Qed.

(** X6. [J] drops the letter [r] in front of every [n] (the pattern of its
    [replace] is the two letters [rn]), so a string with [rn] has the
    digest of the string without that [r]. *)
Theorem md5_rn_collision (a b : string) :
  ends_with "r" a = false ->
  Md5.md5 (a ++ "rn" ++ b) = Md5.md5 (a ++ "n" ++ b).
Proof.
  intros H. unfold Md5.md5, Md5.J. cbn [append].
  now rewrite replace_rn_app.
Qed.

Lemma J_identity_witness : Md5.J "MuniRPCv2:10.32.16.1" = "MuniRPCv2:10.32.16.1".
Proof. apply J_identity; reflexivity. Defined.

Lemma md5_rn_collision_witness :
  Md5.md5 ("vendor=ho" ++ "rn" ++ "et") = Md5.md5 ("vendor=ho" ++ "n" ++ "et").
Proof. apply md5_rn_collision. reflexivity. Defined.

(** ** The queue, continued *)

Lemma StronglySorted_remove (l1 l2 : list Z) (x : Z) :
  StronglySorted Z.lt (l1 ++ x :: l2)%list -> StronglySorted Z.lt (l1 ++ l2)%list.
Proof.
  induction l1 as [|a l1 IH]; cbn [app]; intros H; inversion H as [|? ? Hs Hf]; subst.
  - assumption.
  - constructor; [now apply IH|].
    apply Forall_app in Hf as [F1 F2]. inversion F2; subst.
    apply Forall_app. now split.
Qed.

Lemma queue_ok_push (st : state) (obj : object) :
  queue_ok st ->
  get obj "id" = VNum (messageId st + 1) ->
  NoDup (keys obj) ->
  queue_ok {| header := header st; JOA_header := JOA_header st;
              messageId := messageId st + 1;
              messages := (messages st ++ [obj])%list |}.
Proof.
  intros (ids & Hmap & Hs & Hb & Hk) Hid Hnd.
  exists (ids ++ [messageId st + 1])%list. cbn [messages messageId].
  rewrite !map_app, Hmap. cbn [map]. rewrite Hid.
  rewrite Forall_forall in Hb.
  split; [reflexivity|]. split; [|split].
  - apply StronglySorted_app; [assumption | repeat constructor |].
    intros x y Hx [<- | []]. specialize (Hb x Hx). lia.
  - apply Forall_app. split.
    + apply Forall_forall. intros x Hx. specialize (Hb x Hx). lia.
    + repeat constructor. lia.
  - apply Forall_app. split; [assumption | repeat constructor; assumption].
Qed.

Lemma queue_ok_skip (st : state) :
  queue_ok st ->
  queue_ok {| header := header st; JOA_header := JOA_header st;
              messageId := messageId st + 1; messages := messages st |}.
Proof.
  intros (ids & Hmap & Hs & Hb & Hk). exists ids. cbn [messages messageId].
  repeat split; try assumption.
  rewrite Forall_forall in *. intros x Hx. specialize (Hb x Hx). lia.
Qed.

Ltac nodup_keys :=
  cbn [keys map fst];
  repeat (constructor; [cbn [In]; intros Hin;
                        repeat (destruct Hin as [Hin | Hin]; [discriminate|]);
                        exact Hin|]);
  constructor.

Lemma queue_ok_remove (st : state) (id : value) :
  queue_ok st -> queue_ok (snd (removeMessage id st)).
Proof.
  intros Hok. unfold removeMessage.
  pose proof (removeMessage_loop_spec id (messages st)) as H.
  destruct (existsb (has_id id) (messages st)).
  - destruct H as (l1 & m & l2 & Hms & _ & _ & ->). cbn [snd].
    destruct Hok as (ids & Hmap & Hs & Hb & Hk). rewrite Hms in *.
    rewrite map_app in Hmap. symmetry in Hmap.
    apply map_eq_app in Hmap as (i1 & i2' & -> & H1 & H2).
    cbn [map] in H2. apply map_eq_cons in H2 as (i & i2 & -> & Hi & H2).
    exists (i1 ++ i2)%list. cbn [messages messageId].
    rewrite !map_app, H1, H2. split; [reflexivity|]. split; [|split].
    + now apply StronglySorted_remove in Hs.
    + apply Forall_app in Hb as [B1 B2]. inversion B2; subst.
      apply Forall_app. now split.
    + apply Forall_app in Hk as [K1 K2]. inversion K2; subst.
      apply Forall_app. now split.
  - rewrite H. exact Hok.
Qed.

Lemma step_queue_ok (o : op) (st : state) : queue_ok st -> queue_ok (snd (step o st)).
Proof.
  intros Hok.
  destruct o; cbn [step];
    unfold addZCLReport, addZCLMultiReport, addZCLCommand, addTime, bindM, generateId,
      resolve_global, push, ret;
    try (destruct (has global "offset")); cbn [returned snd].
  - apply (queue_ok_push st); [assumption | reflexivity | nodup_keys].
  - apply (queue_ok_push st); [assumption | reflexivity | nodup_keys].
  - apply (queue_ok_push st); [assumption | reflexivity | nodup_keys].
  - now apply queue_ok_skip.
  - apply (queue_ok_push st); [assumption | reflexivity | nodup_keys].
  - now apply queue_ok_remove.
  - destruct Hok as (ids & Hmap & Hs & Hb & Hk). exists [].
    repeat split; constructor.
Qed.

Lemma run_queue_ok (ops : list op) (st : state) :
  queue_ok st -> queue_ok (snd (run ops st)).
Proof.
  revert st. induction ops as [|o ops IH]; intros st Hok; [exact Hok|].
  cbn [run]. pose proof (step_queue_ok o st Hok) as H1.
  destruct (step o st) as [created st']. cbn [snd] in H1.
  specialize (IH st' H1). destruct (run ops st') as [created' st'']. exact IH.
Qed.

Lemma init_queue_ok : queue_ok init.
Proof. exists []. repeat split; constructor. Qed.

(** X7. The queue operations keep the queue in order: from a queue whose
    ids are numbers in strictly increasing order, none above the counter,
    every sequence of adds, removals and clears during which the counter
    stays in the range where a number counts exactly (from 0 to 2^53)
    leads to such a queue.  In particular no two queued Reports ever have
    the same id. *)
Theorem queue_stays_ordered (ops : list op) (st : state) :
  queue_ok st ->
  0 <= messageId st ->
  messageId st + Z.of_nat (List.length ops) <= max_exact_counter ->
  queue_ok (snd (run ops st))
  /\ NoDup (map (fun m => get m "id") (messages (snd (run ops st))))
  /\ messageId (snd (run ops st)) <= max_exact_counter.
Proof.
  intros Hok Hlo Hhi. pose proof (run_queue_ok ops st Hok) as Hok'.
  split; [exact Hok'|]. split; [|pose proof (run_counter ops st); lia].
  destruct Hok' as (ids & -> & Hs & _ & _).
  clear - Hs. induction Hs as [|a l _ IH Hf]; cbn [map]; constructor; [|exact IH].
  intros Hin. apply in_map_iff in Hin as (x & [= ->] & Hx).
  rewrite Forall_forall in Hf. specialize (Hf a Hx). lia.
Qed.

Lemma strict_eq_VNum (i : Z) (id : value) : strict_eq (VNum i) id = true -> id = VNum i.
Proof.
  destruct id; cbn; try discriminate. intros H. apply Z.eqb_eq in H. now subst.
Qed.

Lemma no_id_in (ms : list object) (ids : list Z) (i : Z) :
  map (fun m => get m "id") ms = map VNum ids ->
  Forall (fun j => j <> i) ids ->
  existsb (has_id (VNum i)) ms = false.
Proof.
  revert ids. induction ms as [|m ms IH]; intros [|j ids] Hmap Hne; try discriminate;
    [reflexivity|].
  cbn [map] in Hmap. injection Hmap as Hm Hmap. inversion Hne; subst.
  cbn [existsb]. unfold has_id at 1. rewrite Hm. cbn [strict_eq].
  replace (j =? i) with false by (symmetry; apply Z.eqb_neq; assumption).
  now apply (IH ids).
Qed.

(** X8. On such a queue [removeMessage(id)] succeeds at most once: a second
    call with the same id returns [false]. *)
Theorem removeMessage_twice (id : value) (st : state) :
  queue_ok st ->
  fst (removeMessage id (snd (removeMessage id st))) = Normal false.
Proof.
  intros Hok.
  assert (Hgone : existsb (has_id id) (messages (snd (removeMessage id st))) = false).
  { unfold removeMessage.
    pose proof (removeMessage_loop_spec id (messages st)) as H.
    destruct (existsb (has_id id) (messages st)) eqn:Eex.
    - destruct H as (l1 & m & l2 & Hms & Hl1 & Hm & ->). cbn [snd messages].
      destruct Hok as (ids & Hmap & Hs & _ & _). rewrite Hms in Hmap.
      rewrite map_app in Hmap. symmetry in Hmap.
      apply map_eq_app in Hmap as (i1 & i2' & -> & H1 & H2).
      cbn [map] in H2. apply map_eq_cons in H2 as (i & i2 & -> & Hi & H2).
      unfold has_id in Hm. rewrite <- Hi in Hm. apply strict_eq_VNum in Hm. subst id.
      apply (no_id_in _ (i1 ++ i2)%list).
      + now rewrite !map_app, H1, H2.
      + clear - Hs. induction i1 as [|a i1 IH]; cbn [app] in *.
        * inversion Hs as [|? ? _ Hf]; subst.
          eapply Forall_impl; [|exact Hf]. cbn. intros; lia.
        * inversion Hs as [|? ? Hs' Hf]; subst. constructor; [|now apply IH].
          apply Forall_app in Hf as [_ Hf]. inversion Hf; subst. lia.
    - rewrite H. exact Eex. }
  unfold removeMessage at 1.
  pose proof (removeMessage_loop_spec id (messages (snd (removeMessage id st)))) as H.
  rewrite Hgone in H. now rewrite H.
Qed.

(** X9. Whatever sequence of queue operations the client has gone through
    since it started, [constructMessages] gives, for every queued Report,
    its field values in order, joined by tabs and closed by a line feed. *)
Theorem reachable_queue_serializes (ops : list op) :
  constructMessages (snd (run ops init))
  = map render_spec (messages (snd (run ops init))).
Proof.
  destruct (run_queue_ok ops init init_queue_ok) as (ids & _ & _ & _ & Hk).
  unfold constructMessages. apply map_ext_in. intros m Hm.
  rewrite Forall_forall in Hk. now apply convertMessage_render_spec, Hk.
Qed.

Lemma queue_stays_ordered_witness :
  map (fun m => get m "id")
    (messages (snd (run [AddTime (VNum 1474552384381);
                         AddZCLReport (VNum 123) VNull VNull (VStr "c") (VStr "d")
                           (VStr "e") (VNum 1000) (VStr "hello");
                         RemoveMessage (VNum 1);
                         AddTime (VNum 1474552384382)] init)))
  = [VNum 2; VNum 3]
  /\ NoDup (map (fun m => get m "id")
              (messages (snd (run [AddTime (VNum 1474552384381);
                                   AddZCLReport (VNum 123) VNull VNull (VStr "c")
                                     (VStr "d") (VStr "e") (VNum 1000) (VStr "hello");
                                   RemoveMessage (VNum 1);
                                   AddTime (VNum 1474552384382)] init)))).
Proof.
  split; [reflexivity|].
  apply queue_stays_ordered.
  - exists []. repeat split; constructor.
  - cbn. lia.
  - vm_compute. discriminate.
Defined.

Lemma removeMessage_twice_witness :
  fst (removeMessage (VNum 2) (snd (removeMessage (VNum 2) Scenario.two_reports)))
  = Normal false.
Proof.
  apply removeMessage_twice. exists [1; 2]. split; [reflexivity|].
  repeat split; repeat constructor; cbn; try lia;
    intros H; repeat (destruct H as [H | H]; [discriminate|]); exact H.
Defined.

(** ** Header and composition, continued *)

Lemma attribute_is_set_cases (v : value) :
  (exists b, attribute_is_set v = Normal b) \/ attribute_is_set v = Throw TypeError.
Proof.
  destruct v; cbn; eauto.
Qed.

Lemma constructHeader_loop_throws (attrs : object) (headerStr : string) :
  (exists k, In k schema_keys /\ get attrs k = VUndefined) ->
  constructHeader_loop attrs schema_keys headerStr = Throw TypeError.
Proof.
  intros (k & Hk & Hu). rewrite constructHeader_loop_schema.
  assert (Hth : attribute_is_set VUndefined = Throw TypeError) by reflexivity.
  destruct (attribute_is_set_cases (get attrs "vendor")) as [[b1 E1] | E1];
    rewrite E1; cbn [bind]; [|reflexivity].
  destruct (attribute_is_set_cases (get attrs "hash")) as [[b2 E2] | E2];
    rewrite E2; cbn [bind]; [|reflexivity].
  destruct (attribute_is_set_cases (get attrs "secret")) as [[b3 E3] | E3];
    rewrite E3; cbn [bind]; [|reflexivity].
  destruct (attribute_is_set_cases (get attrs "time")) as [[b4 E4] | E4];
    rewrite E4; cbn [bind]; [|reflexivity].
  exfalso. cbn [schema_keys In] in Hk.
  destruct Hk as [<- | [<- | [<- | [<- | []]]]]; rewrite Hu in *; congruence.
Qed.

(** X10. With a non-empty gateway identifier, a configuration that lacks
    one of the four attributes (its value reads [undefined]) makes header
    construction, composition and [toString] throw a [TypeError]; no
    callback is called. *)
Theorem missing_attribute_throws (st : state) (g : string) (k : string) :
  keys (attribute (header st)) = schema_keys ->
  gatewayIdentifier (JOA_header_object st) = VStr g ->
  g <> "" ->
  In k schema_keys ->
  get (attribute (JOA_header_object st)) k = VUndefined ->
  constructHeader st = Throw TypeError
  /\ constructJOAPayload st = Throw TypeError
  /\ toString st = Throw TypeError.
Proof.
  intros Hkeys Hgw Hg Hk Hu.
  assert (H : constructHeader st = Throw TypeError).
  { unfold constructHeader. rewrite Hkeys, Hgw.
    assert (Hlen : length_gt_0 (VStr g) = Normal true)
      by (destruct g; [congruence | reflexivity]).
    cbn [strict_eq negb]. rewrite Hlen. cbn [bind].
    rewrite constructHeader_loop_throws by eauto. reflexivity. }
  unfold toString, constructJOAPayload. rewrite H. repeat split.
Qed.

(** X11. What the gateway identifier can be: [undefined] throws a
    [TypeError]; a non-empty string never gives
    [no_gatewayidentifier_set]; every other value, also a number or a
    boolean, gives [no_gatewayidentifier_set]. *)
Theorem gatewayIdentifier_kinds (st : state) :
  match gatewayIdentifier (JOA_header_object st) with
  | VUndefined =>
      constructHeader st = Throw TypeError /\ toString st = Throw TypeError
  | VStr (String _ _) =>
      constructHeader st <> Normal (cb_err "no_gatewayidentifier_set")
  | _ =>
      constructHeader st = Normal (cb_err "no_gatewayidentifier_set")
      /\ toString st = Normal "no_gatewayidentifier_set"
  end.
Proof.
  unfold toString, constructJOAPayload, constructHeader.
  destruct (gatewayIdentifier (JOA_header_object st)) as [| |b|n|[|c s]];
    cbn [strict_eq negb length_gt_0 bind]; try (split; reflexivity).
  replace (len (String c s) >? 0) with true
    by (unfold len; cbn [String.length]; symmetry; apply Z.gtb_lt; lia).
  destruct (constructHeader_loop _ _ _) as [hs|e]; cbn [bind]; [|discriminate].
  destruct (negb _); discriminate.
Qed.

(** X12. With an accepted header line and a truthy hash attribute, the
    payload is hashed exactly when the secret is a non-empty string: any
    other secret, also a number or [true], gives [no_secret_set]. *)
Theorem secret_kinds (st : state) (h : string) :
  constructHeader st = Normal (cb_ok h) ->
  truthy (get (attribute (JOA_header_object st)) "hash") = true ->
  match get (attribute (JOA_header_object st)) "secret" with
  | VStr (String _ _) =>
      constructJOAPayload st
      = Normal (cb_ok (hashJOAPayload st (h ++ array_ToString (constructMessages st))))
  | _ =>
      constructJOAPayload st = Normal (cb_err "no_secret_set")
      /\ toString st = Normal "no_secret_set"
  end.
Proof.
  intros Hh Hhash. unfold toString, constructJOAPayload. rewrite Hh. cbn [bind].
  rewrite Hhash. cbn [negb andb].
  destruct (get (attribute (JOA_header_object st)) "secret") as [| |[|]|n|[|c s]];
    cbn [truthy length_gt_0 bind String.eqb negb];
    try destruct (negb (n =? 0)); cbn [bind]; first [split; reflexivity | reflexivity].
Qed.

Lemma missing_attribute_throws_witness :
  toString (Scenario.configured
              {| attribute := [("vendor", VStr "jwz"); ("time", VStr "time")];
                 gatewayIdentifier := VStr "0.0.0.0" |})
  = Throw TypeError.
Proof.
  refine (proj2 (proj2 (missing_attribute_throws
                          (Scenario.configured
                             {| attribute := [("vendor", VStr "jwz"); ("time", VStr "time")];
                                gatewayIdentifier := VStr "0.0.0.0" |})
                          "0.0.0.0" "hash" eq_refl eq_refl _ _ eq_refl))).
  - discriminate.
  - cbn. auto.
Defined.

Lemma secret_kinds_witness :
  toString (Scenario.configured
              (Scenario.test_config (VStr "debug") false true (VNum 12345) (VStr "0.0.0.0")))
  = Normal "no_secret_set".
Proof.
  exact (proj2 (secret_kinds
                  (Scenario.configured
                     (Scenario.test_config (VStr "debug") false true (VNum 12345)
                        (VStr "0.0.0.0")))
                  ("MuniRPCv2:0.0.0.0,vendor=debug" ++ char_eol) eq_refl eq_refl)).
Defined.

Lemma constructHeader_loop_extends (attrs : object) (ks : list string) (s r : string) :
  constructHeader_loop attrs ks s = Normal r -> exists suffix, r = s ++ suffix.
Proof.
  revert s. induction ks as [|k ks IH]; intros s; cbn [constructHeader_loop].
  - intros [= <-]. exists "". now rewrite append_nil_r.
  - destruct (attribute_is_set (get attrs k)) as [[|]|]; cbn [bind]; try discriminate.
    + destruct (String.eqb k "time");
        [|destruct (negb (String.eqb k "secret") && negb (String.eqb k "hash"))];
        intros H; apply IH in H as [suf ->]; rewrite ?append_assoc; eauto.
    + apply IH.
Qed.

Lemma constructHeader_ok_prefix (st : state) (h : string) :
  constructHeader st = Normal (cb_ok h) -> exists r, h = protocolVersion ++ r.
Proof.
  unfold constructHeader.
  destruct (if negb (strict_eq (gatewayIdentifier (JOA_header_object st)) VNull)
            then length_gt_0 (gatewayIdentifier (JOA_header_object st))
            else Normal false) as [[|]|]; cbn [bind]; try discriminate.
  destruct (constructHeader_loop _ _ _) as [hs|] eqn:E; cbn [bind]; try discriminate.
  apply constructHeader_loop_extends in E as [suf ->].
  destruct (negb _); intros [= <-].
  exists (ToString (gatewayIdentifier (JOA_header_object st)) ++ suf ++ char_eol).
  change ("" ++ protocolVersion) with protocolVersion. now rewrite !append_assoc.
Qed.

Lemma constructHeader_errors (st : state) (e : string) :
  constructHeader st = Normal (cb_err e) ->
  e = "no_gatewayidentifier_set" \/ e = "no_vendor_attribute_set".
Proof.
  unfold constructHeader.
  destruct (if negb (strict_eq (gatewayIdentifier (JOA_header_object st)) VNull)
            then length_gt_0 (gatewayIdentifier (JOA_header_object st))
            else Normal false) as [[|]|]; cbn [bind]; try discriminate.
  - destruct (constructHeader_loop _ _ _) as [hs|]; cbn [bind]; try discriminate.
    destruct (negb _); intros [= <-]. now right.
  - intros [= <-]. now left.
Qed.

(** The first line feed of a string that starts with the protocol version
    comes after it. *)
Lemma prefix_before_eol (pre post r : string) :
  protocolVersion ++ r = pre ++ char_eol ++ post ->
  prefix protocolVersion pre = true.
Proof.
  unfold protocolVersion, char_eol. cbn [append]. intros H.
  do 10 (destruct pre as [|? pre]; [cbn [append] in H; discriminate|];
         cbn [append] in H; injection H as <- H).
  cbn. repeat (match goal with
               | |- context [ascii_dec ?a ?b] => destruct (ascii_dec a b); [|congruence]
               end).
  apply prefix_nil.
Qed.

Lemma prefix_app_l (p a b : string) : prefix p a = true -> prefix p (a ++ b) = true.
Proof.
  revert a. induction p as [|c p IH]; intros a H; [apply prefix_nil|].
  destruct a as [|x a]; [discriminate|]. cbn in H |- *.
  destruct (ascii_dec c x); [now apply IH | discriminate].
Qed.

Lemma payload_prefix (st : state) (p : string) :
  constructJOAPayload st = Normal (cb_ok p) -> prefix protocolVersion p = true.
Proof.
  unfold constructJOAPayload.
  destruct (constructHeader st) as [[e|h]|] eqn:Eh; cbn [bind]; try discriminate.
  destruct (constructHeader_ok_prefix st h Eh) as [r Hr].
  destruct (negb (truthy (get (attribute (JOA_header_object st)) "hash"))).
  - intros [= <-]. rewrite Hr, append_assoc. apply prefix_app.
  - match goal with
    | |- bind ?c _ = _ -> _ => destruct c as [[|]|]
    end; cbn [bind]; try discriminate.
    intros [= <-].
    destruct (constructHeader_ok_eol st h Eh) as (hs & ->).
    destruct (hashJOAPayload_splice st hs (array_ToString (constructMessages st)))
      as (pre & post & Hsplit & _ & ->).
    apply prefix_app_l. apply (prefix_before_eol pre post r). congruence.
Qed.

Lemma payload_errors (st : state) (e : string) :
  constructJOAPayload st = Normal (cb_err e) -> In e error_codes.
Proof.
  unfold constructJOAPayload.
  destruct (constructHeader st) as [[e'|h]|] eqn:Eh; cbn [bind]; try discriminate.
  - intros [= <-]. apply constructHeader_errors in Eh as [-> | ->]; cbn; auto.
  - destruct (negb (truthy (get (attribute (JOA_header_object st)) "hash")));
      try discriminate.
    match goal with
    | |- bind ?c _ = _ -> _ => destruct c as [[|]|]
    end; cbn [bind]; try discriminate.
    intros [= <-]. cbn; auto.
Qed.

(** X13. The string [toString] returns is a payload exactly when it starts
    with [MuniRPCv2:]; otherwise it is one of the three error codes. *)
Theorem toString_tells_errors (st : state) (s : string) :
  toString st = Normal s ->
  if prefix protocolVersion s
  then constructJOAPayload st = Normal (cb_ok s)
  else constructJOAPayload st = Normal (cb_err s) /\ In s error_codes.
Proof.
  unfold toString.
  destruct (constructJOAPayload st) as [[e|p]|] eqn:E; cbn [bind]; try discriminate;
    intros [= <-].
  - apply payload_errors in E as H. cbn [error_codes In] in H.
    destruct H as [<- | [<- | [<- | []]]]; cbn; auto 6.
  - now rewrite (payload_prefix st p E).
Qed.

Lemma contains_char_app (a b : string) (c : ascii) :
  contains (a ++ b) (String c "") = contains a (String c "") || contains b (String c "").
Proof.
  induction a as [|x a IH].
  - cbn [append]. rewrite contains_nil. reflexivity.
  - cbn [append]. rewrite !contains_cons, IH. cbn [prefix].
    destruct (ascii_dec c x); [now rewrite !prefix_nil | reflexivity].
Qed.

Lemma contains_false_indexOf (s pat : string) :
  contains s pat = false <-> indexOf s pat = -1.
Proof.
  unfold contains. destruct (Z.eqb_spec (indexOf s pat) (-1)); cbn; split; congruence.
Qed.

(** X14. The hashed payload of a well-formed configuration whose gateway
    identifier and vendor hold no line feed:
    [MuniRPCv2:<gateway>,vendor=<vendor>[,time],hash=<digest>], a line feed
    and the serialized queue, the digest being taken over the secret, the
    header line without hash attribute, the line feed and the queue. *)
Theorem hashed_wire_format (st : state) (g v s : string) :
  keys (attribute (header st)) = schema_keys ->
  gatewayIdentifier (JOA_header_object st) = VStr g -> g <> "" ->
  let attrs := attribute (JOA_header_object st) in
  get attrs "vendor" = VStr v -> v <> "" ->
  truthy (get attrs "hash") = true ->
  get attrs "secret" = VStr s -> s <> "" ->
  get attrs "time" <> VUndefined ->
  indexOf g char_eol = -1 ->
  indexOf v char_eol = -1 ->
  let line := protocolVersion ++ g ++ ",vendor=" ++ v
              ++ (if truthy (get attrs "time") then ",time" else "") in
  let body := array_ToString (constructMessages st) in
  constructJOAPayload st
  = Normal (cb_ok (line ++ ",hash=" ++ Md5.md5 (s ++ line ++ char_eol ++ body)
                   ++ char_eol ++ body)).
Proof.
  intros Hkeys Hgw Hg attrs Hv Hvne Hhash Hs Hsne Ht Hgl Hvl line body.
  assert (Hh : constructHeader st = Normal (cb_ok (line ++ char_eol))).
  { pose proof (constructHeader_defined st g Hkeys Hgw Hg) as H.
    cbn zeta in H. fold attrs in H. rewrite Hv, Hs in H.
    specialize (H ltac:(discriminate)
                  ltac:(intros E; rewrite E in Hhash; discriminate)
                  ltac:(discriminate) Ht).
    cbn [ToString truthy] in H.
    replace (negb (String.eqb v "")) with true in H
      by (destruct v; [congruence | reflexivity]).
    replace (protocolVersion ++ g ++ (",vendor=" ++ v)
             ++ (if truthy (get attrs "time") then ",time" else "") ++ char_eol)
      with (line ++ char_eol) in H
      by (unfold line; now rewrite !append_assoc).
    replace (contains (line ++ char_eol) "vendor=") with true in H; [exact H|].
    unfold line. symmetry.
    replace ((protocolVersion ++ g ++ ",vendor=" ++ v
              ++ (if truthy (get attrs "time") then ",time" else "")) ++ char_eol)
      with ((protocolVersion ++ g ++ ",") ++ "vendor="
            ++ (v ++ (if truthy (get attrs "time") then ",time" else "") ++ char_eol))
      by (now rewrite !append_assoc).
    apply contains_app_pat. }
  assert (Hline : indexOf line char_eol = -1).
  { apply contains_false_indexOf. unfold line, char_eol.
    apply contains_false_indexOf in Hgl, Hvl. unfold char_eol in Hgl, Hvl.
    rewrite !contains_char_app, Hgl, Hvl.
    destruct (truthy (get attrs "time")); reflexivity. }
  unfold constructJOAPayload. rewrite Hh. cbn [bind]. fold attrs.
  rewrite Hhash, Hs. cbn [negb andb truthy length_gt_0].
  replace (negb (String.eqb s "")) with true by (destruct s; [congruence | reflexivity]).
  replace (len s >? 0) with true
    by (destruct s; [congruence|]; unfold len; cbn [String.length];
        symmetry; apply Z.gtb_lt; lia).
  cbn [bind]. fold body. f_equal. f_equal.
  unfold hashJOAPayload. cbn zeta. fold attrs. rewrite Hs. cbn [ToString].
  set (digest := Md5.md5 _).
  assert (Ed : digest = Md5.md5 (s ++ line ++ char_eol ++ body)).
  { unfold digest. now rewrite !append_assoc. }
  rewrite <- Ed. clearbody digest.
  rewrite append_assoc. unfold char_eol in *.
  change (String (ascii_of_nat 10) "" ++ body) with (String (ascii_of_nat 10) body).
  rewrite (indexOf_char_first line body _ Hline).
  now rewrite slice_prefix, slice_suffix.
Qed.

Lemma toString_tells_errors_witness :
  constructJOAPayload
    (Scenario.configured
       (Scenario.test_config (VStr "debug") true false VNull (VStr "0.0.0.0")))
  = Normal (cb_ok ("MuniRPCv2:0.0.0.0,vendor=debug,time" ++ char_eol)).
Proof.
  exact (toString_tells_errors
           (Scenario.configured
              (Scenario.test_config (VStr "debug") true false VNull (VStr "0.0.0.0")))
           ("MuniRPCv2:0.0.0.0,vendor=debug,time" ++ char_eol) eq_refl).
Defined.

Lemma hashed_wire_format_witness :
  constructJOAPayload
    (Scenario.configured
       (Scenario.test_config (VStr "debug") false true (VStr "simplesecret")
          (VStr "0.0.0.0")))
  = Normal (cb_ok ((protocolVersion ++ "0.0.0.0" ++ ",vendor=" ++ "debug" ++ "")
                   ++ ",hash="
                   ++ Md5.md5 ("simplesecret"
                               ++ (protocolVersion ++ "0.0.0.0" ++ ",vendor=" ++ "debug" ++ "")
                               ++ char_eol ++ "")
                   ++ char_eol ++ "")).
Proof.
  apply (hashed_wire_format
           (Scenario.configured
              (Scenario.test_config (VStr "debug") false true (VStr "simplesecret")
                 (VStr "0.0.0.0")))
           "0.0.0.0" "debug" "simplesecret"); try reflexivity; discriminate.
Defined.

(** ** The transport and the other Reports *)

(** The header line is made from the two header objects only. *)
Lemma constructHeader_ext (st1 st2 : state) :
  header st1 = header st2 ->
  JOA_header st1 = JOA_header st2 ->
  constructHeader st1 = constructHeader st2.
Proof.
  intros H1 H2. unfold constructHeader, JOA_header_object. now rewrite H1, H2.
Qed.

Lemma handle_keeps_header (e : event) (st : state) :
  header (handle e st) = header st /\ JOA_header (handle e st) = JOA_header st.
Proof.
  destruct e as [o | status rt stt]; cbn [handle].
  - pose proof (run_keeps_header [o] st) as H. cbn [run] in H.
    destruct (step o st) as [created st']. exact H.
  - unfold post_done. destruct (status =? 200); split; reflexivity.
Qed.

Lemma handle_counter (e : event) (st : state) :
  messageId st <= messageId (handle e st) <= messageId st + 1.
Proof.
  destruct e as [o | status rt stt]; cbn [handle].
  - apply step_counter.
  - unfold post_done. destruct (status =? 200); cbn; lia.
Qed.

Lemma handle_queue_ok (e : event) (st : state) :
  queue_ok st -> queue_ok (handle e st).
Proof.
  intros Hok. destruct e as [o | status rt stt]; cbn [handle].
  - now apply step_queue_ok.
  - unfold post_done. destruct (status =? 200); [|exact Hok].
    exists []. repeat split; constructor.
Qed.

(** The queued ids are numbers above [lo], none above the counter. *)
Lemma handle_keeps_above (lo : Z) (e : event) (st : state) :
  lo <= messageId st ->
  (exists ids, map (fun m => get m "id") (messages st) = map VNum ids
               /\ Forall (fun i => lo < i <= messageId st) ids) ->
  exists ids, map (fun m => get m "id") (messages (handle e st)) = map VNum ids
              /\ Forall (fun i => lo < i <= messageId (handle e st)) ids.
Proof.
  intros Hlo (ids & Hmap & Hf).
  assert (Hpush : forall obj,
    get obj "id" = VNum (messageId st + 1) ->
    exists ids', map (fun m => get m "id") (messages st ++ [obj])%list = map VNum ids'
                 /\ Forall (fun i => lo < i <= messageId st + 1) ids').
  { intros obj Hid. exists (ids ++ [messageId st + 1])%list.
    rewrite !map_app, Hmap. cbn [map]. rewrite Hid. split; [reflexivity|].
    apply Forall_app. split; [|repeat constructor; lia].
    eapply Forall_impl; [|exact Hf]. cbn. intros; lia. }
  assert (Hskip : exists ids', map (fun m => get m "id") (messages st) = map VNum ids'
                               /\ Forall (fun i => lo < i <= messageId st + 1) ids').
  { exists ids. split; [exact Hmap|].
    eapply Forall_impl; [|exact Hf]. cbn. intros; lia. }
  destruct e as [o | status rt stt]; cbn [handle].
  - destruct o; cbn [step];
      unfold addZCLReport, addZCLMultiReport, addZCLCommand, addTime, bindM, generateId,
        resolve_global, push, ret;
      try (destruct (has global "offset")); cbn [returned snd messages messageId];
      try (apply Hpush; reflexivity); try exact Hskip.
    + unfold removeMessage.
      pose proof (removeMessage_loop_spec id (messages st)) as H.
      destruct (existsb (has_id id) (messages st)).
      * destruct H as (l1 & m & l2 & Hms & _ & _ & ->). cbn [snd messages messageId].
        rewrite Hms, map_app in Hmap. symmetry in Hmap.
        apply map_eq_app in Hmap as (i1 & i2' & -> & H1 & H2).
        cbn [map] in H2. apply map_eq_cons in H2 as (i & i2 & -> & Hi & H2).
        exists (i1 ++ i2)%list. rewrite !map_app, H1, H2. split; [reflexivity|].
        apply Forall_app in Hf as [F1 F2]. inversion F2; subst.
        apply Forall_app. now split.
      * rewrite H. cbn [snd]. exists ids. now split.
    + exists []. split; [reflexivity | constructor].
  - unfold post_done. destruct (status =? 200); cbn [snd bindM clearMessages ret].
    + exists []. split; [reflexivity | constructor].
    + exists ids. now split.
Qed.

Lemma handle_all_app (es1 es2 : list event) (st : state) :
  handle_all (es1 ++ es2) st = handle_all es2 (handle_all es1 st).
Proof.
  revert st. induction es1 as [|e es1 IH]; intros st; [reflexivity|].
  cbn [app handle_all]. apply IH.
Qed.

Lemma handle_all_invariants (es : list event) (st : state) :
  (queue_ok st -> queue_ok (handle_all es st))
  /\ constructHeader (handle_all es st) = constructHeader st
  /\ messageId st <= messageId (handle_all es st)
     <= messageId st + Z.of_nat (List.length es).
Proof.
  revert st. induction es as [|e es IH]; intros st.
  - cbn. repeat split; auto; lia.
  - cbn [handle_all List.length].
    destruct (IH (handle e st)) as (Hq & Hh & Hc).
    destruct (handle_keeps_header e st) as [H1 H2].
    pose proof (handle_counter e st) as Hc1.
    split; [|split].
    + intros Hok. now apply Hq, handle_queue_ok.
    + rewrite Hh. now apply constructHeader_ext.
    + lia.
Qed.

Lemma handle_all_keeps_above (lo : Z) (es : list event) (st : state) :
  lo <= messageId st ->
  (exists ids, map (fun m => get m "id") (messages st) = map VNum ids
               /\ Forall (fun i => lo < i <= messageId st) ids) ->
  exists ids, map (fun m => get m "id") (messages (handle_all es st)) = map VNum ids
              /\ Forall (fun i => lo < i <= messageId (handle_all es st)) ids.
Proof.
  revert st. induction es as [|e es IH]; intros st Hlo H; [exact H|].
  cbn [handle_all]. apply IH.
  - pose proof (handle_counter e st). lia.
  - now apply handle_keeps_above.
Qed.

(** X16. Queue operations and request completions, in any order and with
    any status, keep the queue in order and the header line as it is, as
    long as the counter stays in the range where a number counts exactly.
    When one of the requests is done with status 200, every Report queued
    afterwards was created after that completion: its id is above the
    value the counter had then, so a Report that was queued when the
    response arrived, also one added while the request was pending, is
    not sent by a later [post]. *)
Theorem completion_clears_what_was_queued (es1 es2 : list event)
    (responseText statusText : string) (st : state) :
  queue_ok st ->
  0 <= messageId st ->
  messageId st + Z.of_nat (List.length (es1 ++ Done 200 responseText statusText :: es2))
  <= max_exact_counter ->
  let done := handle_all es1 st in
  let st' := handle_all (es1 ++ Done 200 responseText statusText :: es2) st in
  queue_ok st'
  /\ constructHeader st' = constructHeader st
  /\ messageId done <= messageId st' <= max_exact_counter
  /\ exists ids,
       map (fun m => get m "id") (messages st') = map VNum ids
       /\ Forall (fun i => messageId done < i <= messageId st') ids.
Proof.
  intros Hok Hlo Hhi. cbn zeta.
  destruct (handle_all_invariants (es1 ++ Done 200 responseText statusText :: es2) st)
    as (Hq & Hh & Hc).
  rewrite handle_all_app in *. cbn [handle_all handle] in *.
  set (done := handle_all es1 st) in *.
  assert (Hcleared : snd (post_done 200 responseText statusText done)
                     = snd (clearMessages done)) by reflexivity.
  rewrite Hcleared in *.
  destruct (handle_all_invariants es2 (snd (clearMessages done))) as (_ & _ & Hc2).
  cbn [clearMessages snd messageId] in Hc2.
  split; [now apply Hq|]. split; [exact Hh|]. split; [cbn in *; lia|].
  apply (handle_all_keeps_above (messageId done) es2 (snd (clearMessages done))).
  - cbn. lia.
  - exists []. split; [reflexivity | constructor].
Qed.

Lemma completion_clears_what_was_queued_witness :
  map (fun m => get m "id")
    (messages (handle_all ([Queue (AddTime (VNum 1474552384381))]
                           ++ Done 200 "ok" "OK"
                              :: [Queue (AddTime (VNum 1474552384382));
                                  Queue (AddTime (VNum 1474552384383))]) init))
  = [VNum 2; VNum 3]
  /\ exists ids,
       map (fun m => get m "id")
         (messages (handle_all ([Queue (AddTime (VNum 1474552384381))]
                                ++ Done 200 "ok" "OK"
                                   :: [Queue (AddTime (VNum 1474552384382));
                                       Queue (AddTime (VNum 1474552384383))]) init))
       = map VNum ids
       /\ Forall (fun i => 1 < i <= 3) ids.
Proof.
  split; [reflexivity|].
  apply (completion_clears_what_was_queued
           [Queue (AddTime (VNum 1474552384381))]
           [Queue (AddTime (VNum 1474552384382)); Queue (AddTime (VNum 1474552384383))]
           "ok" "OK" init).
  - exists []. repeat split; constructor.
  - cbn. lia.
  - vm_compute. discriminate.
Defined.

(** X15. [post] sends a request, to [JOA.url], only with a composed payload,
    which starts with [MuniRPCv2:]; if the composition fails nothing is
    sent and the callback gets one of the three error codes. *)
Theorem post_sends_only_payloads (c : client) :
  match post c with
  | Normal (post_send url params) =>
      url = JOA_url c
      /\ prefix protocolVersion params = true
      /\ constructJOAPayload (closure c) = Normal (cb_ok params)
  | Normal (post_cb err) =>
      In err error_codes /\ toString (closure c) = Normal err
  | Throw e => toString (closure c) = Throw e
  end.
Proof.
  unfold post, toString.
  destruct (constructJOAPayload (closure c)) as [[e|p]|] eqn:E; cbn [bind].
  - split; [now apply (payload_errors (closure c)) | reflexivity].
  - repeat split. now apply (payload_prefix (closure c)).
  - reflexivity.
Qed.

(** X17. [addTime] and [addZCLMultiReport] take the next id, queue the
    Report and return it; its line is the id, the message type ([t], [1])
    and the arguments in order, with the defaults for a missing endpointId
    and profileId, joined by tabs and closed by a line feed. *)
Theorem other_reports_lines (st : state) :
  (forall timestamp,
     exists obj,
       addTime timestamp st
       = (Normal obj,
          {| header := header st; JOA_header := JOA_header st;
             messageId := messageId st + 1;
             messages := (messages st ++ [obj])%list |})
       /\ convertMessage obj
          = join char_tab [ToString (VNum (messageId st + 1)); "t"; ToString timestamp]
            ++ char_eol)
  /\ (forall eui64 endpointId profileId clusterId attributeId dataTypeId timestamp
        offset values,
      exists obj,
        addZCLMultiReport eui64 endpointId profileId clusterId attributeId dataTypeId
          timestamp offset values st
        = (Normal obj,
           {| header := header st; JOA_header := JOA_header st;
              messageId := messageId st + 1;
              messages := (messages st ++ [obj])%list |})
        /\ convertMessage obj
           = join char_tab
               [ToString (VNum (messageId st + 1)); "1"; ToString eui64;
                ToString (if truthy endpointId then endpointId else VStr "0x0a");
                ToString (if truthy profileId then profileId else VStr "0xf100");
                ToString clusterId; ToString attributeId; ToString dataTypeId;
                ToString timestamp; ToString offset; ToString values]
             ++ char_eol).
Proof.
  split.
  - intros ts.
    exists [("id", VNum (messageId st + 1)); ("messageType", messageType.TimeIndication);
            ("timestamp", ts)].
    split; [reflexivity|].
    rewrite convertMessage_render_spec; [reflexivity|].
    cbn [keys map fst].
    repeat (constructor; [cbn [In]; intros Hin;
                          repeat (destruct Hin as [Hin | Hin]; [discriminate|]);
                          exact Hin|]).
    constructor.
  - intros.
    exists [("id", VNum (messageId st + 1)); ("messageType", messageType.ZCLMultiReport);
            ("eui64", eui64); ("endpointId", or_else endpointId (VStr "0x0a"));
            ("profileId", or_else profileId (VStr "0xf100")); ("clusterId", clusterId);
            ("attributeId", attributeId); ("dataTypeId", dataTypeId);
            ("timestamp", timestamp); ("offset", offset); ("values", values)].
    split; [reflexivity|].
    rewrite convertMessage_render_spec; [reflexivity|].
    cbn [keys map fst].
    repeat (constructor; [cbn [In]; intros Hin;
                          repeat (destruct Hin as [Hin | Hin]; [discriminate|]);
                          exact Hin|]).
    constructor.
Qed.
